(** * wisshrd: an interactive helper that composes an SSH connection string

    The program (main.go) gathers candidate values for four categories
    (key, account, host, jump) from the SSH client configuration and from a
    JSON history file, lets an external picker (fzf) choose one value per
    category, records the choices in the history and launches ssh.

    This development embeds the program's functions as Rocq functions:
    - Go strings are byte strings ([string]); the functions of the Go
      packages [unicode/utf8], [unicode], [strings] and [fmt] that the
      program calls are modelled in the modules of the same names;
    - [time.Time] is a type parameter, with its JSON methods as a class;
    - everything outside the process (home directory, user database,
      files, clock, the picker's answers, the line typed at the
      confirmation prompt, the ssh client) is an explicit [World], threaded
      through the code by a small state monad;
    - [encoding/json] is modelled on JSON documents, for the one type the
      program stores. *)

From Stdlib Require Import ZArith Ascii String List Lia Permutation.
From stdpp Require Import gmap strings list.

Open Scope Z_scope.

(* ===================================================================== *)
(** * Go's text packages, as far as the program uses them                *)
(* ===================================================================== *)

(** The line feed. *)
Definition LF : ascii := "010"%char.

(** ** unicode/utf8 *)
Module utf8.

Definition RuneError : Z := 0xFFFD.

Definition byte (c : ascii) : Z := Z.of_N (N_of_ascii c).

Definition between (lo hi b : Z) : bool := (lo <=? b) && (b <=? hi).

(** The six payload bits of a continuation byte. *)
Definition low6 (c : ascii) : Z := Z.land (byte c) 0x3F.

(** [utf8.DecodeRuneInString]: the first rune of [s] and its width in bytes.
    Ill-formed input yields [(RuneError, 1)], empty input [(RuneError, 0)]. *)
Definition DecodeRuneInString (s : string) : Z * nat :=
  match s with
  | EmptyString => (RuneError, 0%nat)
  | String c0 t =>
      let b0 := byte c0 in
      if b0 <? 0x80 then (b0, 1%nat)
      else if between 0xC2 0xDF b0 then
        match t with
        | String c1 _ =>
            if between 0x80 0xBF (byte c1)
            then (Z.lor (Z.shiftl (Z.land b0 0x1F) 6) (low6 c1), 2%nat)
            else (RuneError, 1%nat)
        | _ => (RuneError, 1%nat)
        end
      else if between 0xE0 0xEF b0 then
        match t with
        | String c1 (String c2 _) =>
            if between (if b0 =? 0xE0 then 0xA0 else 0x80)
                       (if b0 =? 0xED then 0x9F else 0xBF) (byte c1)
               && between 0x80 0xBF (byte c2)
            then (Z.lor (Z.lor (Z.shiftl (Z.land b0 0x0F) 12)
                               (Z.shiftl (low6 c1) 6)) (low6 c2), 3%nat)
            else (RuneError, 1%nat)
        | _ => (RuneError, 1%nat)
        end
      else if between 0xF0 0xF4 b0 then
        match t with
        | String c1 (String c2 (String c3 _)) =>
            if between (if b0 =? 0xF0 then 0x90 else 0x80)
                       (if b0 =? 0xF4 then 0x8F else 0xBF) (byte c1)
               && between 0x80 0xBF (byte c2)
               && between 0x80 0xBF (byte c3)
            then (Z.lor (Z.lor (Z.lor (Z.shiftl (Z.land b0 0x07) 18)
                                      (Z.shiftl (low6 c1) 12))
                               (Z.shiftl (low6 c2) 6)) (low6 c3), 4%nat)
            else (RuneError, 1%nat)
        | _ => (RuneError, 1%nat)
        end
      else (RuneError, 1%nat)
  end.

(** One step of [for _, r := range s]: a rune and the bytes it was read
    from. *)
Record chunk := Chunk { rune : Z; bytes : string }.

(** [skip] counts the bytes of [s] that still belong to the rune decoded
    last. *)
Fixpoint runesFrom (skip : nat) (s : string) : list chunk :=
  match s with
  | EmptyString => []
  | String _ t =>
      match skip with
      | S k => runesFrom k t
      | O =>
          let '(r, n) := DecodeRuneInString s in
          Chunk r (substring 0 n s) :: runesFrom (n - 1) t
      end
  end.

(** The runes of [s], in order; the [bytes] of the chunks concatenate to
    [s]. *)
Definition runes (s : string) : list chunk := runesFrom 0 s.

Definition join (cs : list chunk) : string :=
  fold_right (fun c acc => bytes c +:+ acc) EmptyString cs.

(** A byte that starts no well-formed sequence decodes to [RuneError] with
    width 1; the encoding of U+FFFD itself has width 3. *)
Definition illFormed (c : chunk) : bool :=
  (rune c =? RuneError) && (String.length (bytes c) =? 1)%nat.

(** The UTF-8 encoding of U+FFFD: EF BF BD. *)
Definition replacement : string :=
  String "239"%char (String "191"%char (String "189"%char EmptyString)).

(** What [utf8.AppendRune] writes for a rune that was read from [c]. *)
Definition reencode (c : chunk) : string :=
  if illFormed c then replacement else bytes c.

Definition ValidString (s : string) : bool :=
  forallb (fun c => negb (illFormed c)) (runes s).

End utf8.

(** ** unicode *)
Module unicode.

(** [unicode.IsSpace]: the White_Space property. *)
Definition IsSpace (r : Z) : bool :=
  utf8.between 0x09 0x0D r || (r =? 0x20) || (r =? 0x85) || (r =? 0xA0)
  || (r =? 0x1680) || utf8.between 0x2000 0x200A r
  || (r =? 0x2028) || (r =? 0x2029) || (r =? 0x202F) || (r =? 0x205F)
  || (r =? 0x3000).

End unicode.

(** ** strings *)
Module strings.

Definition HasPrefix (s pre : string) : bool := String.prefix pre s.

Fixpoint drop (n : nat) (s : string) : string :=
  match n, s with
  | S k, String _ t => drop k t
  | _, _ => s
  end.

Definition TrimPrefix (s pre : string) : string :=
  if HasPrefix s pre then drop (String.length pre) s else s.

Fixpoint Contains (s sub : string) : bool :=
  String.prefix sub s ||
  match s with
  | EmptyString => false
  | String _ t => Contains t sub
  end.

Definition space (c : utf8.chunk) : bool := unicode.IsSpace (utf8.rune c).

Fixpoint dropSpaces (cs : list utf8.chunk) : list utf8.chunk :=
  match cs with
  | c :: t => if space c then dropSpaces t else cs
  | [] => []
  end.

(** [strings.TrimSpace]: [s] without its leading and trailing white
    space. *)
Definition TrimSpace (s : string) : string :=
  utf8.join (rev (dropSpaces (rev (dropSpaces (utf8.runes s))))).

(** [cur] holds the chunks of the field being read, last one first. *)
Fixpoint fieldsFrom (cur : list utf8.chunk) (cs : list utf8.chunk)
  : list string :=
  match cs with
  | [] => match cur with [] => [] | _ => [utf8.join (rev cur)] end
  | c :: t =>
      if space c
      then match cur with
           | [] => fieldsFrom [] t
           | _ => utf8.join (rev cur) :: fieldsFrom [] t
           end
      else fieldsFrom (c :: cur) t
  end.

(** [strings.Fields]: the maximal runs of non-space runes of [s]. *)
Definition Fields (s : string) : list string := fieldsFrom [] (utf8.runes s).

(** [strings.Split(s, sep)] for a separator of one byte, the only kind the
    program passes. The result is never empty. *)
Fixpoint Split (s : string) (sep : ascii) : list string :=
  match s with
  | EmptyString => [EmptyString]
  | String c t =>
      if Ascii.eqb c sep then EmptyString :: Split t sep
      else match Split t sep with
           | h :: r => String c h :: r
           | [] => [String c EmptyString]
           end
  end.

Definition lowerByte (c : ascii) : ascii :=
  let b := utf8.byte c in
  if utf8.between 0x41 0x5A b then ascii_of_N (Z.to_N (b + 32)) else c.

(** [strings.ToLower]. ASCII letters are mapped by the byte; of the other
    runes, U+0130 and U+212A are the two whose lower case is an ASCII
    letter, an ill-formed byte becomes U+FFFD, and the remaining ones
    (whose lower case is again outside ASCII) are left as they are: the
    case table of the other scripts is not part of the model. *)
Definition lowerChunk (c : utf8.chunk) : string :=
  match utf8.bytes c with
  | String b EmptyString =>
      if utf8.byte b <? 0x80 then String (lowerByte b) EmptyString
      else utf8.reencode c
  | _ =>
      if utf8.rune c =? 0x130 then "i"%string
      else if utf8.rune c =? 0x212A then "k"%string
      else utf8.reencode c
  end.

Definition ToLower (s : string) : string :=
  fold_right (fun c acc => lowerChunk c +:+ acc) EmptyString (utf8.runes s).

End strings.

(** ** fmt *)
Module fmt.

Inductive scanError := UnexpectedNewline | UnexpectedEOF | ExpectedNewline.

(** [SkipSpace] of the scan state as [Scanln] runs it: a newline is not
    white space there but an error ([None]). *)
Fixpoint SkipSpace (cs : list utf8.chunk) : option (list utf8.chunk) :=
  match cs with
  | [] => Some []
  | c :: t =>
      if utf8.rune c =? 0x0A then None
      else if unicode.IsSpace (utf8.rune c) then SkipSpace t
      else Some cs
  end.

(** The runes of the operand: up to the next white space. *)
Fixpoint token (cs : list utf8.chunk) : list utf8.chunk :=
  match cs with
  | c :: t => if unicode.IsSpace (utf8.rune c) then [] else c :: token t
  | [] => []
  end.

Fixpoint afterToken (cs : list utf8.chunk) : list utf8.chunk :=
  match cs with
  | c :: t => if unicode.IsSpace (utf8.rune c) then cs else afterToken t
  | [] => []
  end.

(** The check that ends [Scanln]: only white space may precede the
    newline or the end of the input. *)
Fixpoint endOfLine (cs : list utf8.chunk) : bool :=
  match cs with
  | [] => true
  | c :: t =>
      if utf8.rune c =? 0x0A then true
      else if unicode.IsSpace (utf8.rune c) then endOfLine t
      else false
  end.

(** [fmt.Scanln(&response)] on the bytes waiting on standard input: the
    value left in [response] (initially empty) and the error returned.
    The operand is stored before the end of the line is checked. *)
Definition Scanln (input : string) : string * option scanError :=
  match SkipSpace (utf8.runes input) with
  | None => (EmptyString, Some UnexpectedNewline)
  | Some [] => (EmptyString, Some UnexpectedEOF)
  | Some cs =>
      (fold_right (fun c acc => utf8.reencode c +:+ acc) EmptyString (token cs),
       if endOfLine (afterToken cs) then None else Some ExpectedNewline)
  end.

(** [fmt.Sprintf("%s@%s", a, b)]: [%s] writes the bytes of its operand. *)
Definition Sprintf_s_at_s (a b : string) : string := a +:+ "@" +:+ b.

(** [fmt.Sprintf("%s@%s@%s", a, b, c)]. *)
Definition Sprintf_s_at_s_at_s (a b c : string) : string :=
  a +:+ "@" +:+ b +:+ "@" +:+ c.

End fmt.

(** ** encoding/json: documents *)
Module json.

(** A JSON text as the decoder's scanner sees it. [Str] holds the content
    of a string literal after unquoting. *)
#[warnings="-register-all"] Inductive value :=
| Null
| Bool (b : bool)
| Number (literal : string)
| Str (s : string)
| Array (items : list value)
| Object (members : list (string * value)).

(** The name the decoder reports in a type error. *)
Definition kind (v : value) : string :=
  match v with
  | Null => "null" | Bool _ => "bool" | Number _ => "number"
  | Str _ => "string" | Array _ => "array" | Object _ => "object"
  end.

(** [foldName]: ASCII letters go to upper case; U+212A and U+017F fold to
    K and S, no other rune outside ASCII folds to an ASCII letter. *)
Definition foldChunk (c : utf8.chunk) : string :=
  match utf8.bytes c with
  | String b EmptyString =>
      if utf8.between 0x61 0x7A (utf8.byte b)
      then String (ascii_of_N (Z.to_N (utf8.byte b - 32))) EmptyString
      else utf8.reencode c
  | _ =>
      if utf8.rune c =? 0x212A then "K"%string
      else if utf8.rune c =? 0x17F then "S"%string
      else utf8.reencode c
  end.

Definition foldName (s : string) : string :=
  fold_right (fun c acc => foldChunk c +:+ acc) EmptyString (utf8.runes s).

(** The struct field a member name selects, from the table of the
    struct's JSON names: the exact name first, then the name up to case
    folding. *)
Definition fieldOf {F : Type} (fields : list (string * F)) (key : string)
  : option F :=
  match List.find (fun f => String.eqb key (fst f)) fields with
  | Some f => Some (snd f)
  | None =>
      match List.find (fun f => String.eqb (foldName key) (foldName (fst f)))
                      fields with
      | Some f => Some (snd f)
      | None => None
      end
  end.

(** String values are written coerced to valid UTF-8: each ill-formed
    byte is replaced by U+FFFD. *)
Definition coerce (s : string) : string :=
  fold_right (fun c acc => utf8.reencode c +:+ acc) EmptyString (utf8.runes s).

End json.

(** ** Shapes of text the statements speak of *)

(** [s] holds no line feed. *)
Definition oneLine (s : string) : bool :=
  forallb (fun c => negb (Ascii.eqb c LF)) (list_ascii_of_string s).

(** The ASCII white space other than the line feed: tab, vertical tab,
    form feed, carriage return, space. *)
Definition blankByte (c : ascii) : bool :=
  let b := utf8.byte c in
  (b =? 0x09) || (b =? 0x0B) || (b =? 0x0C) || (b =? 0x0D) || (b =? 0x20).

Definition blanks (s : string) : bool :=
  forallb blankByte (list_ascii_of_string s).

(* ===================================================================== *)
(** * Errors, results and the state monad                                *)
(* ===================================================================== *)

Inductive error :=
| HomeUndefined                               (* os.UserHomeDir *)
| PathError (op path : string)                (* *fs.PathError *)
| SyntaxError                                 (* *json.SyntaxError *)
| UnmarshalTypeError (value field : string)   (* *json.UnmarshalTypeError *)
| TimeError                                   (* Time.UnmarshalJSON *)
| MarshalerError                              (* *json.MarshalerError *)
| PipeError                                   (* cmd.StdinPipe *)
| ExecError                                   (* *exec.Error: fzf not started *)
| ExitError (code : Z)                        (* *exec.ExitError *)
| Errorf (msg : string) (err : error).        (* fmt.Errorf(msg + ": %w", err) *)

(** A Go pair [(v, err)] whose value is meaningless when [err != nil]. *)
Inductive result (A : Type) :=
| Ok (a : A)
| Err (e : error).
Arguments Ok {A} a.
Arguments Err {A} e.

Definition State (S A : Type) : Type := S -> A * S.

Definition ret {S A} (a : A) : State S A := fun w => (a, w).

Definition bind {S A B} (m : State S A) (f : A -> State S B) : State S B :=
  fun w => let '(a, w') := m w in f a w'.

Definition gets {S A} (f : S -> A) : State S A := fun w => (f w, w).

Notation "'let*' x := m 'in' k" := (bind m (fun x => k))
  (at level 10, x pattern, m at level 100, k at level 200, only parsing).

(** The decoder keeps the first type error and goes on ([savedError]);
    an error returned by an [UnmarshalJSON] method ends the decoding at
    once ([aborted]). In both cases [target] is what has been stored so
    far. *)
Record decoded (A : Type) := Decoded {
  target : A;
  savedError : option error;
  aborted : option error
}.
Arguments Decoded {A} target savedError aborted.
Arguments target {A} d.
Arguments savedError {A} d.
Arguments aborted {A} d.

Definition saveError (saved : option error) (e : error) : option error :=
  match saved with
  | Some _ => saved
  | None => Some e
  end.

(** [time.Time] with the two functions its JSON methods are built on. *)
Class TimeJSON (Time : Type) := {
  zeroTime : Time;
  appendStrictRFC3339 : Time -> option string;
  parseStrictRFC3339 : string -> option Time
}.

(* ===================================================================== *)
(** * The program                                                        *)
(* ===================================================================== *)

Section Program.

Context {Time : Type} `{TimeJSON Time}.

(** ** Data model *)

Record StoredEntry := {
  Value : string;
  LastUsed : Time;
  CreatedAt : Time
}.

Record StoredData := {
  Keys : list StoredEntry;
  Accounts : list StoredEntry;
  Hosts : list StoredEntry;
  Jumps : list StoredEntry
}.

(** [SSHConfig] has the field names of [StoredData]; its projections carry
    the prefix [config]. *)
Record SSHConfig := {
  configKeys : list StoredEntry;
  configAccounts : list StoredEntry;
  configHosts : list StoredEntry;
  configJumps : list StoredEntry
}.

Inductive category := CKeys | CAccounts | CHosts | CJumps.

Definition setCategory (c : category) (l : list StoredEntry) (d : StoredData)
  : StoredData :=
  match c with
  | CKeys => {| Keys := l; Accounts := Accounts d; Hosts := Hosts d; Jumps := Jumps d |}
  | CAccounts => {| Keys := Keys d; Accounts := l; Hosts := Hosts d; Jumps := Jumps d |}
  | CHosts => {| Keys := Keys d; Accounts := Accounts d; Hosts := l; Jumps := Jumps d |}
  | CJumps => {| Keys := Keys d; Accounts := Accounts d; Hosts := Hosts d; Jumps := l |}
  end.

Definition getCategory (c : category) (d : StoredData) : list StoredEntry :=
  match c with
  | CKeys => Keys d
  | CAccounts => Accounts d
  | CHosts => Hosts d
  | CJumps => Jumps d
  end.

(** The value [loadStoredData] starts from: four empty lists. *)
Definition emptyData : StoredData :=
  {| Keys := []; Accounts := []; Hosts := []; Jumps := [] |}.

(** ** The environment *)

(** What the history file holds, as [json.Unmarshal] classifies its bytes:
    not a JSON text, or the text of a document. *)
Inductive content :=
| NotJSON
| Text (doc : json.value).

(** A path that exists: a file that can be read and replaced, or
    something that can be neither (no permission, a directory). *)
Inductive node :=
| Locked
| File (c : content).

(** What running the picker comes to. *)
Inductive picker :=
| PipeFailed                                (* cmd.StdinPipe failed *)
| NotStarted                                (* cmd.Output: fzf did not run *)
| Exited (code : Z) (output : string).      (* exit status and captured stdout *)

Record World := {
  showVersion : bool;                       (* the -version flag *)
  homeDir : option string;                  (* os.UserHomeDir *)
  currentUser : option string;              (* user.Current().Username *)
  blocked : gset string;                    (* directories MkdirAll cannot make *)
  sshConfigs : gmap string (list string);   (* text files, as the lines bufio.Scanner yields *)
  files : gmap string node;                 (* history files *)
  clock : nat -> Time;                      (* the successive readings of time.Now *)
  ticks : nat;                              (* how many readings were taken *)
  fzf : list string -> string -> picker;    (* the picker, on the items and prompt label *)
  stdin : string;                           (* the bytes waiting on standard input *)
  ssh : string -> option error              (* the ssh client, on its argument *)
}.

Definition IO (A : Type) : Type := State World A.

Definition os_UserHomeDir : IO (result string) :=
  gets (fun w => match homeDir w with
                 | Some h => Ok h
                 | None => Err HomeUndefined
                 end).

Definition os_MkdirAll (path : string) : IO (option error) :=
  gets (fun w => if decide (path ∈ blocked w)
                 then Some (PathError "mkdir" path) else None).

(** [os.IsNotExist] of the error of [os.Stat(path)]. *)
Definition os_Stat_IsNotExist (path : string) : IO bool :=
  gets (fun w => match files w !! path with None => true | Some _ => false end).

Definition os_ReadFile (path : string) : IO (result content) :=
  gets (fun w => match files w !! path with
                 | Some (File c) => Ok c
                 | _ => Err (PathError "open" path)
                 end).

Definition os_WriteFile (path : string) (c : content) : IO (option error) :=
  fun w =>
    match files w !! path with
    | Some Locked => (Some (PathError "open" path), w)
    | _ =>
        (None,
         {| showVersion := showVersion w; homeDir := homeDir w;
            currentUser := currentUser w; blocked := blocked w;
            sshConfigs := sshConfigs w;
            files := <[path := File c]> (files w);
            clock := clock w; ticks := ticks w; fzf := fzf w;
            stdin := stdin w; ssh := ssh w |})
    end.

(** [os.Open] followed by the scanner loop: the lines of the file. *)
Definition os_Open (path : string) : IO (option (list string)) :=
  gets (fun w => sshConfigs w !! path).

Definition user_Current : IO (option string) := gets currentUser.

Definition time_Now : IO Time :=
  fun w =>
    (clock w (ticks w),
     {| showVersion := showVersion w; homeDir := homeDir w;
        currentUser := currentUser w; blocked := blocked w;
        sshConfigs := sshConfigs w; files := files w;
        clock := clock w; ticks := S (ticks w); fzf := fzf w;
        stdin := stdin w; ssh := ssh w |}).

(** [filepath.Join]: the elements separated by slashes (the cleaning of
    the result is not modelled). *)
Fixpoint filepath_Join (elem : list string) : string :=
  match elem with
  | [] => EmptyString
  | [e] => e
  | e :: rest => e +:+ "/" +:+ filepath_Join rest
  end.

(** ** encoding/json on [StoredData] *)

(** [UnmarshalJSON] of [*Time]: [null] leaves the time as it is, a string
    literal is parsed, any other value is refused. (The method reads the
    literal as it is written; a document that spells a timestamp with
    escape sequences is not among the documents modelled.) *)
Definition Time_UnmarshalJSON (v : json.value) (t : Time) : result Time :=
  match v with
  | json.Null => Ok t
  | json.Str s =>
      match parseStrictRFC3339 s with
      | Some t' => Ok t'
      | None => Err TimeError
      end
  | _ => Err TimeError
  end.

(** [Time.MarshalJSON]. *)
Definition Time_MarshalJSON (t : Time) : option json.value :=
  match appendStrictRFC3339 t with
  | Some s => Some (json.Str s)
  | None => None
  end.

(** A value decoded into a field of kind string. *)
Definition storeString (field : string) (v : json.value) (s : string)
    (saved : option error) : string * option error :=
  match v with
  | json.Str s' => (s', saved)
  | json.Null => (s, saved)
  | _ => (s, saveError saved (UnmarshalTypeError (json.kind v) field))
  end.

Inductive entryField := FValue | FLastUsed | FCreatedAt.

Definition entryFields : list (string * entryField) :=
  [("value"%string, FValue); ("last_used"%string, FLastUsed);
   ("created_at"%string, FCreatedAt)].

Definition dataFields : list (string * category) :=
  [("keys"%string, CKeys); ("accounts"%string, CAccounts);
   ("hosts"%string, CHosts); ("jumps"%string, CJumps)].

Definition zeroEntry : StoredEntry :=
  {| Value := EmptyString; LastUsed := zeroTime; CreatedAt := zeroTime |}.

(** The members of an object decoded into a [StoredEntry], in order;
    members that name no field are skipped. *)
Fixpoint objectEntry (members : list (string * json.value)) (e : StoredEntry)
    (saved : option error) : decoded StoredEntry :=
  match members with
  | [] => Decoded e saved None
  | (k, v) :: rest =>
      match json.fieldOf entryFields k with
      | Some FValue =>
          let '(s, saved') := storeString "StoredEntry.value" v (Value e) saved in
          objectEntry rest
            {| Value := s; LastUsed := LastUsed e; CreatedAt := CreatedAt e |}
            saved'
      | Some FLastUsed =>
          match Time_UnmarshalJSON v (LastUsed e) with
          | Ok t =>
              objectEntry rest
                {| Value := Value e; LastUsed := t; CreatedAt := CreatedAt e |}
                saved
          | Err err => Decoded e saved (Some err)
          end
      | Some FCreatedAt =>
          match Time_UnmarshalJSON v (CreatedAt e) with
          | Ok t =>
              objectEntry rest
                {| Value := Value e; LastUsed := LastUsed e; CreatedAt := t |}
                saved
          | Err err => Decoded e saved (Some err)
          end
      | None => objectEntry rest e saved
      end
  end.

Definition valueEntry (v : json.value) (e : StoredEntry)
    (saved : option error) : decoded StoredEntry :=
  match v with
  | json.Null => Decoded e saved None
  | json.Object members => objectEntry members e saved
  | _ => Decoded e (saveError saved (UnmarshalTypeError (json.kind v) "StoredEntry")) None
  end.

(** An array decoded into a slice that holds [old]: element [i] is
    decoded into the element the slice has at [i] (the zero entry beyond
    its length), and the slice ends up as long as the array. When an
    element aborts, the slice keeps what follows it. *)
Fixpoint arrayEntries (items : list json.value) (old : list StoredEntry)
    (saved : option error) : decoded (list StoredEntry) :=
  match items with
  | [] => Decoded [] saved None
  | item :: rest =>
      let d := valueEntry item (hd zeroEntry old) saved in
      match aborted d with
      | Some err => Decoded (target d :: tl old) (savedError d) (Some err)
      | None =>
          let r := arrayEntries rest (tl old) (savedError d) in
          Decoded (target d :: target r) (savedError r) (aborted r)
      end
  end.

Definition valueEntries (field : string) (v : json.value)
    (old : list StoredEntry) (saved : option error)
  : decoded (list StoredEntry) :=
  match v with
  | json.Null => Decoded [] saved None
  | json.Array items => arrayEntries items old saved
  | _ => Decoded old (saveError saved (UnmarshalTypeError (json.kind v) field)) None
  end.

Fixpoint objectData (members : list (string * json.value)) (data : StoredData)
    (saved : option error) : decoded StoredData :=
  match members with
  | [] => Decoded data saved None
  | (k, v) :: rest =>
      match json.fieldOf dataFields k with
      | Some c =>
          let d := valueEntries k v (getCategory c data) saved in
          match aborted d with
          | Some err => Decoded (setCategory c (target d) data) (savedError d) (Some err)
          | None => objectData rest (setCategory c (target d) data) (savedError d)
          end
      | None => objectData rest data saved
      end
  end.

Definition valueData (v : json.value) (data : StoredData)
  : decoded StoredData :=
  match v with
  | json.Null => Decoded data None None
  | json.Object members => objectData members data None
  | _ => Decoded data (Some (UnmarshalTypeError (json.kind v) "StoredData")) None
  end.

(** [json.Unmarshal(file, data)]: the value [data] points to afterwards,
    and the error. Bytes that are no JSON text are refused before anything
    is stored. *)
Definition json_Unmarshal (file : content) (data : StoredData)
  : StoredData * option error :=
  match file with
  | NotJSON => (data, Some SyntaxError)
  | Text v =>
      let d := valueData v data in
      (target d,
       match aborted d with
       | Some err => Some err
       | None => savedError d
       end)
  end.

Definition marshalEntry (e : StoredEntry) : option json.value :=
  match Time_MarshalJSON (LastUsed e), Time_MarshalJSON (CreatedAt e) with
  | Some lastUsed, Some createdAt =>
      Some (json.Object [("value"%string, json.Str (json.coerce (Value e)));
                         ("last_used"%string, lastUsed);
                         ("created_at"%string, createdAt)])
  | _, _ => None
  end.

Fixpoint marshalEntries (l : list StoredEntry) : option (list json.value) :=
  match l with
  | [] => Some []
  | e :: rest =>
      match marshalEntry e, marshalEntries rest with
      | Some v, Some vs => Some (v :: vs)
      | _, _ => None
      end
  end.

(** [json.MarshalIndent(data, "", "  ")]: the document whose text is
    written, or the error of a time that has no RFC 3339 form. A list
    without entries is written as an empty array (Go writes [null] for a
    nil slice; both are read back as a list without entries). *)
Definition json_MarshalIndent (data : StoredData) : result content :=
  match marshalEntries (Keys data), marshalEntries (Accounts data),
        marshalEntries (Hosts data), marshalEntries (Jumps data) with
  | Some k, Some a, Some h, Some j =>
      Ok (Text (json.Object [("keys"%string, json.Array k);
                             ("accounts"%string, json.Array a);
                             ("hosts"%string, json.Array h);
                             ("jumps"%string, json.Array j)]))
  | _, _, _, _ => Err MarshalerError
  end.

(** ** Persisted history store *)

Definition getConfigPath : IO (result string) :=
  let* home := os_UserHomeDir in
  match home with
  | Err err => ret (Err (Errorf "could not get home directory" err))
  | Ok homeDir =>
      let configDir := filepath_Join [homeDir; ".config"%string; "wisshrd"%string] in
      let* made := os_MkdirAll configDir in
      match made with
      | Some err => ret (Err (Errorf "could not create config directory" err))
      | None => ret (Ok (filepath_Join [configDir; "history.json"%string]))
      end
  end.

Definition loadStoredData : IO (StoredData * option error) :=
  let data := emptyData in
  let* path := getConfigPath in
  match path with
  | Err err => ret (data, Some err)
  | Ok configPath =>
      let* absent := os_Stat_IsNotExist configPath in
      if (absent : bool) then ret (data, None)
      else
        let* read := os_ReadFile configPath in
        match read with
        | Err err => ret (data, Some (Errorf "could not read config file" err))
        | Ok file =>
            match json_Unmarshal file data with
            | (data, Some err) =>
                ret (data, Some (Errorf "could not parse config file" err))
            | (data, None) => ret (data, None)
            end
        end
  end.

Definition saveStoredData (data : StoredData) : IO (option error) :=
  let* path := getConfigPath in
  match path with
  | Err err => ret (Some err)
  | Ok configPath =>
      match json_MarshalIndent data with
      | Err err => ret (Some (Errorf "could not marshal config data" err))
      | Ok jsonData =>
          let* written := os_WriteFile configPath jsonData in
          match written with
          | Some err => ret (Some (Errorf "could not write config file" err))
          | None => ret None
          end
      end
  end.

Definition getValues (entries : list StoredEntry) : list string :=
  map Value entries.

Definition createStoredEntry (value : string) : IO StoredEntry :=
  let* now := time_Now in
  ret {| Value := value; LastUsed := now; CreatedAt := now |}.

(** The index at which the loop of [addOrUpdateEntry] stops: the first
    entry whose value is [value]. *)
Fixpoint indexOfValue (entries : list StoredEntry) (value : string)
  : option nat :=
  match entries with
  | [] => None
  | entry :: rest =>
      if String.eqb (Value entry) value then Some O
      else match indexOfValue rest value with
           | Some i => Some (S i)
           | None => None
           end
  end.

Definition touch (now : Time) (entry : StoredEntry) : StoredEntry :=
  {| Value := Value entry; LastUsed := now; CreatedAt := CreatedAt entry |}.

Definition addOrUpdateEntry (entries : list StoredEntry) (value : string)
  : IO (list StoredEntry) :=
  let* now := time_Now in
  match indexOfValue entries value with
  | Some i => ret (alter (touch now) i entries)
  | None =>
      ret (entries ++ [{| Value := value; LastUsed := now; CreatedAt := now |}])
  end.

(** ** Candidate aggregator *)

(** A loop [for _, x := range l] whose body updates [acc]. *)
Fixpoint forEach {A B : Type} (body : B -> A -> IO B) (l : list A) (acc : B)
  : IO B :=
  match l with
  | [] => ret acc
  | x :: rest => let* acc' := body acc x in forEach body rest acc'
  end.

Definition appendTo (c : category) (config : SSHConfig) (value : string)
  : IO SSHConfig :=
  let* entry := createStoredEntry value in
  ret match c with
      | CKeys =>
          {| configKeys := configKeys config ++ [entry];
             configAccounts := configAccounts config;
             configHosts := configHosts config;
             configJumps := configJumps config |}
      | CAccounts =>
          {| configKeys := configKeys config;
             configAccounts := configAccounts config ++ [entry];
             configHosts := configHosts config;
             configJumps := configJumps config |}
      | CHosts =>
          {| configKeys := configKeys config;
             configAccounts := configAccounts config;
             configHosts := configHosts config ++ [entry];
             configJumps := configJumps config |}
      | CJumps =>
          {| configKeys := configKeys config;
             configAccounts := configAccounts config;
             configHosts := configHosts config;
             configJumps := configJumps config ++ [entry] |}
      end.

(** The body of the scanner loop of [loadSSHConfig], on one line of the
    configuration file. *)
Definition scanLine (config : SSHConfig) (text : string) : IO SSHConfig :=
  let line := strings.TrimSpace text in
  if strings.HasPrefix line "Host " then
    let host := strings.TrimPrefix line "Host " in
    if negb (strings.Contains host "*")
    then forEach (appendTo CHosts) (strings.Fields host) config
    else ret config
  else if strings.HasPrefix line "User " then
    appendTo CAccounts config (strings.TrimPrefix line "User ")
  else if strings.HasPrefix line "ProxyJump " then
    appendTo CJumps config (strings.TrimPrefix line "ProxyJump ")
  else ret config.

Definition loadSSHConfig : IO (result SSHConfig) :=
  let* home := os_UserHomeDir in
  match home with
  | Err err => ret (Err err)
  | Ok homeDir =>
      let config :=
        {| configKeys := []; configAccounts := [];
           configHosts := []; configJumps := [] |} in
      let* currentUser := user_Current in
      let* config := match currentUser with
                     | Some username => appendTo CKeys config username
                     | None => ret config
                     end in
      let sshConfigPath := filepath_Join [homeDir; ".ssh"%string; "config"%string] in
      let* file := os_Open sshConfigPath in
      let* config := match file with
                     | Some lines => forEach scanLine lines config
                     | None => ret config
                     end in
      let* (storedData, err) := loadStoredData in
      match err with
      | None =>
          ret (Ok {| configKeys := configKeys config ++ Keys storedData;
                     configAccounts := configAccounts config ++ Accounts storedData;
                     configHosts := configHosts config ++ Hosts storedData;
                     configJumps := configJumps config ++ Jumps storedData |})
      | Some _ => ret (Ok config)
      end
  end.

(** ** Interactive selector adapter *)

Definition runFzf (items : list string) (prompt : string)
  : IO (string * option error) :=
  let* cmd := gets (fun w => fzf w items prompt) in
  match cmd with
  | PipeFailed => ret (EmptyString, Some PipeError)
  | NotStarted => ret (EmptyString, Some ExecError)
  | Exited code output =>
      if code =? 0 then
        let lines := strings.Split output LF in
        if (2 <=? length lines)%nat then
          let selection := strings.TrimSpace (nth 1 lines EmptyString) in
          if negb (String.eqb selection "")
          then ret (selection, None)
          else ret (strings.TrimSpace (nth 0 lines EmptyString), None)
        else ret (strings.TrimSpace output, None)
      else
        let err := ExitError code in
        if code =? 1 then
          let lines := strings.Split output LF in
          if (0 <? length lines)%nat && negb (String.eqb (nth 0 lines EmptyString) "")
          then ret (nth 0 lines EmptyString, None)
          else ret (EmptyString, Some err)
        else ret (EmptyString, Some err)
  end.

(** ** Connection command, confirmation and launch *)

(** The connection string [main] builds in its variable [sshCmd]. *)
Definition sshCmd (key account host jump : string) : string :=
  let sshCmd := fmt.Sprintf_s_at_s_at_s key account host in
  if negb (String.eqb jump "") then fmt.Sprintf_s_at_s sshCmd jump
  else sshCmd.

Definition promptConfirmation (sshCmd : string) : IO bool :=
  let* input := gets stdin in
  let response := fst (fmt.Scanln input) in
  ret (String.eqb (strings.ToLower response) "y").

Definition executeSSH (sshCmd : string) : IO (option error) :=
  gets (fun w => ssh w sshCmd).

(** ** main *)

(** How the process ends: [os.Exit(code)] (a return from [main] is
    [Exit 0]) or a run-time panic. *)
Inductive status :=
| Exit (code : Z)
| Panic (msg : string).

(** What a run did: its end, the selections resolved so far (key, account,
    host, jump), the [storedData] handed to [saveStoredData] and the
    command shown at the confirmation prompt, if these points were
    reached. *)
Record Run := {
  exit : status;
  picks : list string;
  storedData : option StoredData;
  command : option string
}.

Definition main : IO Run :=
  let* version := gets showVersion in
  if (version : bool) then ret (Build_Run (Exit 0) [] None None) else
  let* loaded := loadSSHConfig in
  match loaded with
  | Err _ => ret (Build_Run (Exit 1) [] None None)
  | Ok config =>
  let* (storedData, _) := loadStoredData in
  let* (key, err) := runFzf (getValues (configKeys config)) "key" in
  match err with
  | Some _ => ret (Build_Run (Exit 1) [] None None)
  | None =>
  match configKeys config with
  | [] => ret (Build_Run (Panic "index out of range [0] with length 0") [key] None None)
  | first :: _ =>
  let* storedData :=
    (if negb (String.eqb key (Value first))
     then let* keys := addOrUpdateEntry (Keys storedData) key in
          ret (setCategory CKeys keys storedData)
     else ret storedData) in
  let* (account, err) := runFzf (getValues (configAccounts config)) "account" in
  match err with
  | Some _ => ret (Build_Run (Exit 1) [key] None None)
  | None =>
  let* accounts := addOrUpdateEntry (Accounts storedData) account in
  let storedData := setCategory CAccounts accounts storedData in
  let* (host, err) := runFzf (getValues (configHosts config)) "host" in
  match err with
  | Some _ => ret (Build_Run (Exit 1) [key; account] None None)
  | None =>
  let* hosts := addOrUpdateEntry (Hosts storedData) host in
  let storedData := setCategory CHosts hosts storedData in
  let* (jump, err) := runFzf (getValues (configJumps config)) "jump" in
  match err with
  | Some _ => ret (Build_Run (Exit 1) [key; account; host] None None)
  | None =>
  let* storedData :=
    (if negb (String.eqb jump "")
     then let* jumps := addOrUpdateEntry (Jumps storedData) jump in
          ret (setCategory CJumps jumps storedData)
     else ret storedData) in
  let* _ := saveStoredData storedData in
  let sshCmd := sshCmd key account host jump in
  let run code :=
    Build_Run (Exit code) [key; account; host; jump] (Some storedData) (Some sshCmd) in
  let* confirmed := promptConfirmation sshCmd in
  if (confirmed : bool) then
    let* failed := executeSSH sshCmd in
    match failed with
    | Some _ => ret (run 1)
    | None => ret (run 0)
    end
  else ret (run 0)
  end end end end end end.

(** ** Vocabulary of the statements *)

(** The world after [n] more readings of the clock. *)
Definition advance (n : nat) (w : World) : World :=
  {| showVersion := showVersion w; homeDir := homeDir w;
     currentUser := currentUser w; blocked := blocked w;
     sshConfigs := sshConfigs w; files := files w;
     clock := clock w; ticks := (n + ticks w)%nat; fzf := fzf w;
     stdin := stdin w; ssh := ssh w |}.

(** [m] changes the world only by reading the clock. *)
Definition ticking {A : Type} (m : IO A) : Prop :=
  forall w, exists n, snd (m w) = advance n w.

(** [m] neither changes the world nor depends on the clock. *)
Definition reading {A : Type} (m : IO A) : Prop :=
  forall w n, m (advance n w) = (fst (m w), advance n w).

(** The paths the program derives from the home directory. *)
Definition configDir (home : string) : string :=
  filepath_Join [home; ".config"%string; "wisshrd"%string].

Definition historyPath (home : string) : string :=
  filepath_Join [configDir home; "history.json"%string].

Definition sshConfigPath (home : string) : string :=
  filepath_Join [home; ".ssh"%string; "config"%string].

(** The configuration [loadSSHConfig] starts from. *)
Definition emptyConfig : SSHConfig :=
  {| configKeys := []; configAccounts := [];
     configHosts := []; configJumps := [] |}.

(** The history [loadSSHConfig] merges into the candidates: what
    [loadStoredData] returns, unless it reports an error. *)
Definition mergedHistory (w : World) : StoredData :=
  match fst (loadStoredData w) with
  | (storedData, None) => storedData
  | (_, Some _) => emptyData
  end.

(** A run got as far as [saveStoredData]. *)
Definition reached (r : Run) : Prop :=
  storedData r <> None \/ command r <> None.

(** The configuration file of the specification's example. *)
Definition exampleConfig : list string :=
  ["Host foo bar"; "Host *wild*"; "User svc1"; "ProxyJump jmp1"]%string.

(** What the round-trip property compares of an entry. *)
Definition identity (e : StoredEntry) : string * Time :=
  (Value e, CreatedAt e).

(** The four lists hold the same (value, createdAt) pairs, in any order. *)
Definition sameEntries (a b : StoredData) : Prop :=
  Permutation (map identity (Keys a)) (map identity (Keys b)) /\
  Permutation (map identity (Accounts a)) (map identity (Accounts b)) /\
  Permutation (map identity (Hosts a)) (map identity (Hosts b)) /\
  Permutation (map identity (Jumps a)) (map identity (Jumps b)).

(** A timestamp that [MarshalJSON] writes and [UnmarshalJSON] reads back
    as itself. *)
Definition representable (t : Time) : Prop :=
  exists s, appendStrictRFC3339 t = Some s /\ parseStrictRFC3339 s = Some t.

(** An entry that JSON can carry unchanged: its value is valid UTF-8 and
    its timestamps are representable. *)
Definition portable (e : StoredEntry) : Prop :=
  utf8.ValidString (Value e) = true /\
  representable (LastUsed e) /\ representable (CreatedAt e).

Definition allEntries (d : StoredData) : list StoredEntry :=
  Keys d ++ Accounts d ++ Hosts d ++ Jumps d.

End Program.

Arguments StoredEntry Time : clear implicits.
Arguments StoredData Time : clear implicits.
Arguments SSHConfig Time : clear implicits.
Arguments World Time : clear implicits.
Arguments IO Time A : clear implicits.
Arguments Run Time : clear implicits.
Arguments ticking Time {A} m.
Arguments reading Time {A} m.

(* ===================================================================== *)
(** * A time instance: UTC timestamps to the second                      *)
(* ===================================================================== *)

(** The examples below run the program on timestamps of the form
    [2006-01-02T15:04:05Z]. *)
Module rfc3339.

Record civil := Civil {
  year : Z; month : Z; day : Z;
  hour : Z; minute : Z; second : Z
}.

Definition digit (n : Z) : ascii := ascii_of_N (Z.to_N (48 + n mod 10)).

Definition pad2 (n : Z) : string :=
  String (digit (n / 10)) (String (digit n) EmptyString).

Definition leap (y : Z) : bool :=
  ((y mod 4 =? 0) && negb (y mod 100 =? 0)) || (y mod 400 =? 0).

Definition daysIn (y m : Z) : Z :=
  if m =? 2 then (if leap y then 29 else 28)
  else if (m =? 4) || (m =? 6) || (m =? 9) || (m =? 11) then 30
  else 31.

Definition wellFormed (t : civil) : bool :=
  utf8.between 0 9999 (year t) && utf8.between 1 12 (month t)
  && utf8.between 1 (daysIn (year t) (month t)) (day t)
  && utf8.between 0 23 (hour t) && utf8.between 0 59 (minute t)
  && utf8.between 0 59 (second t).

(** The text of a timestamp; a year outside [0, 9999] has none. *)
Definition format (t : civil) : option string :=
  if utf8.between 0 9999 (year t) then
    Some (pad2 (year t / 100) +:+ pad2 (year t mod 100) +:+ "-" +:+
          pad2 (month t) +:+ "-" +:+ pad2 (day t) +:+ "T" +:+
          pad2 (hour t) +:+ ":" +:+ pad2 (minute t) +:+ ":" +:+
          pad2 (second t) +:+ "Z")
  else None.

Definition digitValue (c : ascii) : option Z :=
  let n := utf8.byte c in
  if utf8.between 48 57 n then Some (n - 48) else None.

Fixpoint number (cs : list ascii) (acc : Z) : option Z :=
  match cs with
  | [] => Some acc
  | c :: rest =>
      match digitValue c with
      | Some d => number rest (10 * acc + d)
      | None => None
      end
  end.

Definition parse (s : string) : option civil :=
  match list_ascii_of_string s with
  | [y1; y2; y3; y4; d1; m1; m2; d2; a1; a2; sepT; h1; h2; c1; i1; i2; c2; s1; s2; z] =>
      if Ascii.eqb d1 "-" && Ascii.eqb d2 "-" && Ascii.eqb sepT "T"
         && Ascii.eqb c1 ":" && Ascii.eqb c2 ":" && Ascii.eqb z "Z"
      then
        match number [y1; y2; y3; y4] 0, number [m1; m2] 0, number [a1; a2] 0,
              number [h1; h2] 0, number [i1; i2] 0, number [s1; s2] 0 with
        | Some y, Some m, Some d, Some h, Some i, Some sec =>
            let t := Civil y m d h i sec in
            if wellFormed t then Some t else None
        | _, _, _, _, _, _ => None
        end
      else None
  | _ => None
  end.

#[global] Instance timeJSON : TimeJSON civil := {
  zeroTime := Civil 1 1 1 0 0 0;
  appendStrictRFC3339 := format;
  parseStrictRFC3339 := parse
}.

End rfc3339.

(* ===================================================================== *)
(** * Further vocabulary                                                 *)
(* ===================================================================== *)

(** ** The earlier version of the history *)

(** The loop of [addUniqueToSlice]: whether an element of [slice] is
    [item]. *)
Fixpoint hasItem (slice : list string) (item : string) : bool :=
  match slice with
  | [] => false
  | existing :: rest =>
      if String.eqb existing item then true else hasItem rest item
  end.

(** [addUniqueToSlice], with which the earlier version of [main] kept its
    history of plain strings. *)
Definition addUniqueToSlice (slice : list string) (item : string)
  : list string :=
  if hasItem slice item then slice else slice ++ [item].

(** ** What one line of the configuration file contributes *)

Definition hostsOf (text : string) : list string :=
  let line := strings.TrimSpace text in
  if strings.HasPrefix line "Host " then
    let host := strings.TrimPrefix line "Host " in
    if strings.Contains host "*" then [] else strings.Fields host
  else [].

Definition accountsOf (text : string) : list string :=
  let line := strings.TrimSpace text in
  if strings.HasPrefix line "Host " then []
  else if strings.HasPrefix line "User "
       then [strings.TrimPrefix line "User "]
       else [].

Definition jumpsOf (text : string) : list string :=
  let line := strings.TrimSpace text in
  if strings.HasPrefix line "Host " then []
  else if strings.HasPrefix line "User " then []
  else if strings.HasPrefix line "ProxyJump "
       then [strings.TrimPrefix line "ProxyJump "]
       else [].

(** What one line contributes to the candidates of a category: no line
    contributes a key. *)
Definition contribution (c : category) (text : string) : list string :=
  match c with
  | CKeys => []
  | CAccounts => accountsOf text
  | CHosts => hostsOf text
  | CJumps => jumpsOf text
  end.

Section Outcomes.

Context {Time : Type} `{TimeJSON Time}.

(** The candidates of a category. *)
Definition getCandidates (c : category) (config : SSHConfig Time)
  : list (StoredEntry Time) :=
  match c with
  | CKeys => configKeys config
  | CAccounts => configAccounts config
  | CHosts => configHosts config
  | CJumps => configJumps config
  end.

(** The synthetic candidate of a category: the current user, among the
    keys. *)
Definition synthetic (c : category) (w : World Time) : list string :=
  match c, currentUser w with
  | CKeys, Some username => [username]
  | _, _ => []
  end.

(** The lines of the configuration file of the SSH client; none when
    the file cannot be opened. *)
Definition configLines (w : World Time) (home : string) : list string :=
  match sshConfigs w !! sshConfigPath home with
  | Some lines => lines
  | None => []
  end.

(** The world in which the file at [path] holds [file]. *)
Definition withFile (path : string) (file : content) (w : World Time)
  : World Time :=
  {| showVersion := showVersion w; homeDir := homeDir w;
     currentUser := currentUser w; blocked := blocked w;
     sshConfigs := sshConfigs w;
     files := <[path := File file]> (files w);
     clock := clock w; ticks := ticks w; fzf := fzf w;
     stdin := stdin w; ssh := ssh w |}.

(** Two worlds that differ at most in the clock readings taken and in
    the files. *)
Definition sameEnvironment (w w' : World Time) : Prop :=
  showVersion w' = showVersion w /\ homeDir w' = homeDir w /\
  currentUser w' = currentUser w /\ blocked w' = blocked w /\
  sshConfigs w' = sshConfigs w /\ clock w' = clock w /\
  fzf w' = fzf w /\ stdin w' = stdin w /\ ssh w' = ssh w.

(** The exit status of a session that got to the confirmation prompt
    with [command]. *)
Definition sessionExit (w : World Time) (command : string) : status :=
  if fst (promptConfirmation command w)
  then match ssh w command with
       | Some _ => Exit 1
       | None => Exit 0
       end
  else Exit 0.

(** What the picker answers to the four prompts of [main], in the
    order in which [main] asks. *)
Definition selections (w : World Time) (config : SSHConfig Time)
  : list (string * option error) :=
  [fst (runFzf (getValues (configKeys config)) "key" w);
   fst (runFzf (getValues (configAccounts config)) "account" w);
   fst (runFzf (getValues (configHosts config)) "host" w);
   fst (runFzf (getValues (configJumps config)) "jump" w)].

(** The values selected before the first selection that fails. *)
Fixpoint chosen (answers : list (string * option error)) : list string :=
  match answers with
  | (value, None) :: rest => value :: chosen rest
  | _ => []
  end.

End Outcomes.

(* ===================================================================== *)
(** * Sample worlds                                                      *)
(* ===================================================================== *)

(** The closed examples run the program in the home of a user [alice],
    on the evening of 2 November 2026. *)

Definition sampleClock (n : nat) : rfc3339.civil :=
  rfc3339.Civil 2026 11 2 21 3 (Z.of_nat n mod 60).

(** The picker exits with status 1 and prints the typed query. *)
Definition typed (query : string) : picker :=
  Exited 1 (query +:+ String LF EmptyString).

(** The picker exits with status 0 and prints the query and the
    selected line. *)
Definition selected (query selection : string) : picker :=
  Exited 0 (query +:+ String LF (selection +:+ String LF EmptyString)).

(** A user who gives one answer per prompt. *)
Definition answers (key account host jump : picker)
  : list string -> string -> picker :=
  fun _ prompt =>
    if String.eqb prompt "key" then key
    else if String.eqb prompt "account" then account
    else if String.eqb prompt "host" then host
    else jump.

Definition sampleWorld (user : option string) (history : option node)
    (picks : list string -> string -> picker) (line : string)
  : World rfc3339.civil :=
  {| showVersion := false;
     homeDir := Some "/home/alice"%string;
     currentUser := user;
     blocked := ∅;
     sshConfigs := {[ "/home/alice/.ssh/config"%string := exampleConfig ]};
     files := match history with
              | Some n => {[ "/home/alice/.config/wisshrd/history.json"%string := n ]}
              | None => ∅
              end;
     clock := sampleClock;
     ticks := 0;
     fzf := picks;
     stdin := line;
     ssh := fun _ => None |}.

(** [alice] picks herself, the account [svc1] and the host [foo], leaves
    the jump host empty and confirms. *)
Definition plainRun : World rfc3339.civil :=
  sampleWorld (Some "alice"%string) None
    (answers (selected "" "alice") (selected "" "svc1") (selected "" "foo")
             (selected "" ""))
    ("y" +:+ String LF EmptyString).

(** The same session with a jump host. *)
Definition jumpRun : World rfc3339.civil :=
  sampleWorld (Some "alice"%string) None
    (answers (selected "" "alice") (selected "" "svc1") (selected "" "foo")
             (typed "jmp1"))
    ("y" +:+ String LF EmptyString).

(** The lookup of the current user fails, there is no history, and the
    user types a key name. *)
Definition noUserRun : World rfc3339.civil :=
  sampleWorld None None
    (answers (typed "alice") (typed "svc1") (typed "foo") (typed "jmp1"))
    ("y" +:+ String LF EmptyString).

Definition evening : rfc3339.civil := rfc3339.Civil 2026 11 2 20 15 0.

Definition eveningText : string := "2026-11-02T20:15:00Z".

(** A history document whose accounts are a number instead of an
    array. *)
Definition brokenHistory : json.value :=
  json.Object
    [("keys"%string,
      json.Array
        [json.Object [("value"%string, json.Str "deploy");
                      ("last_used"%string, json.Str eveningText);
                      ("created_at"%string, json.Str eveningText)]]);
     ("accounts"%string, json.Number "7")].

Definition brokenRun : World rfc3339.civil :=
  sampleWorld (Some "alice"%string) (Some (File (Text brokenHistory)))
    (answers (selected "" "alice") (typed "svc1") (typed "foo") (typed "jmp1"))
    ("n" +:+ String LF EmptyString).

(** The byte FF is no UTF-8. *)
Definition latin1 : string := String "255"%char EmptyString.

Definition deploy : StoredEntry rfc3339.civil :=
  {| Value := "deploy"; LastUsed := evening; CreatedAt := evening |}.

Definition sampleData (value : string) : StoredData rfc3339.civil :=
  {| Keys := [{| Value := value; LastUsed := evening; CreatedAt := evening |}];
     Accounts := []; Hosts := []; Jumps := [] |}.

(** [alice] is asked to confirm and answers with [line]. *)
Definition asked (line : string) : World rfc3339.civil :=
  sampleWorld (Some "alice"%string) None
    (answers (selected "" "alice") (selected "" "svc1") (selected "" "foo")
             (selected "" ""))
    line.

(** What [plainRun] hands to [saveStoredData]. *)
Definition plainStored : StoredData rfc3339.civil :=
  {| Keys := [];
     Accounts := [{| Value := "svc1"; LastUsed := sampleClock 5;
                     CreatedAt := sampleClock 5 |}];
     Hosts := [{| Value := "foo"; LastUsed := sampleClock 6;
                  CreatedAt := sampleClock 6 |}];
     Jumps := [] |}.

(** ** Further sample worlds *)

(** The picker is left with the escape key. *)
Definition cancelled : picker := Exited 130 EmptyString.

(** [alice] picks herself and the account [svc1], and leaves the picker
    of the host with the escape key. *)
Definition cancelledRun : World rfc3339.civil :=
  sampleWorld (Some "alice"%string) None
    (answers (selected "" "alice") (selected "" "svc1") cancelled
             (selected "" ""))
    ("y" +:+ String LF EmptyString).

(** The world [w] without a home directory. *)
Definition homeless (w : World rfc3339.civil) : World rfc3339.civil :=
  {| showVersion := showVersion w; homeDir := None;
     currentUser := currentUser w; blocked := blocked w;
     sshConfigs := sshConfigs w; files := files w;
     clock := clock w; ticks := ticks w; fzf := fzf w;
     stdin := stdin w; ssh := ssh w |}.

(** The world [w] in which the configuration directory of [alice]
    cannot be created. *)
Definition readOnly (w : World rfc3339.civil) : World rfc3339.civil :=
  {| showVersion := showVersion w; homeDir := homeDir w;
     currentUser := currentUser w;
     blocked := {[ "/home/alice/.config/wisshrd"%string ]};
     sshConfigs := sshConfigs w; files := files w;
     clock := clock w; ticks := ticks w; fzf := fzf w;
     stdin := stdin w; ssh := ssh w |}.

(** A history in which [alice] has used the account [root] before. *)
Definition rootHistory : json.value :=
  json.Object
    [("accounts"%string,
      json.Array
        [json.Object [("value"%string, json.Str "root");
                      ("last_used"%string, json.Str eveningText);
                      ("created_at"%string, json.Str eveningText)]])].

(** [alice] picks the account [svc1] with [root] in her history. *)
Definition secondRun : World rfc3339.civil :=
  sampleWorld (Some "alice"%string) (Some (File (Text rootHistory)))
    (answers (selected "" "alice") (selected "" "svc1") (selected "" "foo")
             (selected "" ""))
    ("y" +:+ String LF EmptyString).

(** What [secondRun] hands to [saveStoredData]. *)
Definition secondStored : StoredData rfc3339.civil :=
  {| Keys := [];
     Accounts := [{| Value := "root"; LastUsed := evening; CreatedAt := evening |};
                  {| Value := "svc1"; LastUsed := sampleClock 5;
                     CreatedAt := sampleClock 5 |}];
     Hosts := [{| Value := "foo"; LastUsed := sampleClock 6;
                  CreatedAt := sampleClock 6 |}];
     Jumps := [] |}.

(* ===================================================================== *)
(** * Properties of the text functions                                   *)
(* ===================================================================== *)

Lemma append_String (c : ascii) (s t : string) :
  String c s +:+ t = String c (s +:+ t).
Proof. reflexivity. Qed.

Lemma append_empty_r (s : string) : s +:+ EmptyString = s.
Proof.
  induction s as [|c s IH]; [reflexivity|].
  now rewrite append_String, IH.
Qed.

Lemma append_assoc (a b c : string) : (a +:+ b) +:+ c = a +:+ (b +:+ c).
Proof.
  induction a as [|x a IH]; [reflexivity|].
  now rewrite !append_String, IH.
Qed.

Lemma substring_drop (n : nat) (s : string) :
  substring 0 n s +:+ strings.drop n s = s.
Proof.
  revert s; induction n as [|n IH]; intros [|c s]; try reflexivity.
  simpl substring. simpl strings.drop. now rewrite append_String, IH.
Qed.

(** A rune is at least one byte wide, and the width of the first rune of a
    non-empty string is between 1 and 4. *)
Lemma DecodeRuneInString_width (c : ascii) (t : string) :
  (1 <= snd (utf8.DecodeRuneInString (String c t)) <= 4)%nat.
Proof.
  unfold utf8.DecodeRuneInString.
  repeat (match goal with
          | |- context [if ?b then _ else _] => destruct b
          | |- context [match ?s with EmptyString => _ | String _ _ => _ end] =>
              destruct s
          end; simpl); lia.
Qed.

Lemma runesFrom_start (c : ascii) (t : string) :
  utf8.runesFrom 0 (String c t) =
  utf8.Chunk (fst (utf8.DecodeRuneInString (String c t)))
             (substring 0 (snd (utf8.DecodeRuneInString (String c t))) (String c t))
  :: utf8.runesFrom (snd (utf8.DecodeRuneInString (String c t)) - 1) t.
Proof.
  change (utf8.runesFrom 0 (String c t)) with
    (let '(r, n) := utf8.DecodeRuneInString (String c t) in
     utf8.Chunk r (substring 0 n (String c t)) :: utf8.runesFrom (n - 1) t).
  now destruct (utf8.DecodeRuneInString (String c t)).
Qed.

Lemma join_cons (c : utf8.chunk) (cs : list utf8.chunk) :
  utf8.join (c :: cs) = utf8.bytes c +:+ utf8.join cs.
Proof. reflexivity. Qed.

Lemma join_runesFrom (n : nat) (s : string) :
  utf8.join (utf8.runesFrom n s) = strings.drop n s.
Proof.
  revert n; induction s as [|c t IH]; intros n.
  - destruct n; reflexivity.
  - destruct n as [|n].
    + rewrite runesFrom_start, join_cons, IH.
      pose proof (DecodeRuneInString_width c t) as Hw.
      destruct (utf8.DecodeRuneInString (String c t)) as [r k]; simpl in Hw.
      destruct k as [|k]; [lia|].
      cbn [fst snd utf8.bytes].
      replace (S k - 1)%nat with k by lia.
      change (strings.drop 0 (String c t)) with (String c t).
      rewrite <- (substring_drop (S k) (String c t)) at 2.
      reflexivity.
    + apply IH.
Qed.

(** The chunks of a string concatenate to the string. *)
Lemma join_runes (s : string) : utf8.join (utf8.runes s) = s.
Proof. unfold utf8.runes. rewrite join_runesFrom. now destruct s. Qed.

Lemma reencode_wellFormed (cs : list utf8.chunk) :
  forallb (fun c => negb (utf8.illFormed c)) cs = true ->
  fold_right (fun c acc => utf8.reencode c +:+ acc) EmptyString cs
  = utf8.join cs.
Proof.
  induction cs as [|c cs IH]; intros Hv; [reflexivity|].
  apply andb_prop in Hv as [Hc Hcs].
  rewrite join_cons, <- (IH Hcs).
  unfold utf8.reencode at 1. cbn [fold_right foldr].
  unfold utf8.reencode at 1.
  now destruct (utf8.illFormed c).
Qed.

(** Coercion to valid UTF-8 changes nothing in a valid string. *)
Lemma coerce_valid (s : string) :
  utf8.ValidString s = true -> json.coerce s = s.
Proof.
  intros Hv. unfold json.coerce.
  rewrite (reencode_wellFormed _ Hv). apply join_runes.
Qed.

(** ** Lines of the picker's output *)

Lemma Split_oneLine (s : string) :
  oneLine s = true -> strings.Split s LF = [s].
Proof.
  induction s as [|c t IH]; [reflexivity|].
  unfold oneLine; simpl. intros Hs. apply andb_prop in Hs as [Hc Ht].
  destruct (Ascii.eqb c LF); [discriminate|].
  now rewrite (IH Ht).
Qed.

Lemma Split_first (query rest : string) :
  oneLine query = true ->
  strings.Split (query +:+ String LF rest) LF
  = query :: strings.Split rest LF.
Proof.
  induction query as [|c t IH]; [reflexivity|].
  unfold oneLine; simpl. intros Hs. apply andb_prop in Hs as [Hc Ht].
  rewrite ?append_String. simpl.
  destruct (Ascii.eqb c LF); [discriminate|].
  now rewrite (IH Ht).
Qed.

Lemma Split_length (s : string) (sep : ascii) :
  (0 < length (strings.Split s sep))%nat.
Proof.
  induction s as [|c t IH]; simpl; [lia|].
  destruct (Ascii.eqb c sep); simpl; [lia|].
  destruct (strings.Split t sep); simpl; lia.
Qed.

(** ** Runes of ASCII text *)

Lemma byte_range (c : ascii) : 0 <= utf8.byte c < 256.
Proof.
  unfold utf8.byte. pose proof (N_ascii_bounded c) as Hb. lia.
Qed.

(** An ASCII byte is a rune of its own. *)
Lemma DecodeRuneInString_ascii (c : ascii) (t : string) :
  utf8.byte c < 0x80 ->
  utf8.DecodeRuneInString (String c t) = (utf8.byte c, 1%nat).
Proof.
  intros Hc. unfold utf8.DecodeRuneInString.
  now destruct (Z.ltb_spec (utf8.byte c) 0x80) as [_|Hge]; [|lia].
Qed.

Lemma runes_ascii (c : ascii) (t : string) :
  utf8.byte c < 0x80 ->
  utf8.runes (String c t)
  = utf8.Chunk (utf8.byte c) (String c EmptyString) :: utf8.runes t.
Proof.
  intros Hc. unfold utf8.runes.
  rewrite runesFrom_start, (DecodeRuneInString_ascii c t Hc).
  cbn [fst snd]. now destruct t.
Qed.

(** ** Lower case *)

Lemma ToLower_ascii (c : ascii) (t : string) :
  utf8.byte c < 0x80 ->
  strings.ToLower (String c t)
  = String (strings.lowerByte c) (strings.ToLower t).
Proof.
  intros Hc. unfold strings.ToLower. rewrite (runes_ascii c t Hc).
  cbn [fold_right foldr]. unfold strings.lowerChunk at 1. cbn [utf8.bytes].
  now destruct (Z.ltb_spec (utf8.byte c) 0x80) as [_|Hge]; [|lia].
Qed.

Lemma substring_first (n : nat) (c : ascii) (t : string) :
  (1 <= n)%nat ->
  substring 0 n (String c t) = String c (substring 0 (n - 1) t).
Proof.
  destruct n as [|n]; [lia|]. intros _. simpl.
  now replace (n - 0)%nat with n by lia.
Qed.

(** The lower case of a string that starts outside ASCII starts with a
    byte other than [y]. *)
Lemma ToLower_wide (c : ascii) (t : string) :
  0x80 <= utf8.byte c ->
  exists x rest, strings.ToLower (String c t) = String x rest /\ x <> "y"%char.
Proof.
  intros Hc. unfold strings.ToLower, utf8.runes. rewrite runesFrom_start.
  cbn [fold_right foldr].
  pose proof (DecodeRuneInString_width c t) as Hw.
  rewrite (substring_first _ c t) by lia.
  assert (Hcy : c <> "y"%char).
  { intros ->. vm_compute in Hc. apply Hc. reflexivity. }
  assert (Hltb : (utf8.byte c <? 0x80) = false) by (apply Z.ltb_ge; exact Hc).
  set (r := fst (utf8.DecodeRuneInString (String c t))).
  set (tl := substring 0 _ t).
  set (more := foldr _ _ _).
  unfold strings.lowerChunk, utf8.reencode. cbn [utf8.bytes utf8.rune].
  destruct (utf8.illFormed _);
    (destruct tl; [rewrite Hltb|
                   destruct (r =? 0x130); [|destruct (r =? 0x212A)]]);
    rewrite ?append_String; eexists _, _; (split; [reflexivity|]);
    first [exact Hcy | discriminate].
Qed.

Lemma lowerByte_y (c : ascii) :
  strings.lowerByte c = "y"%char -> c = "y"%char \/ c = "Y"%char.
Proof.
  destruct c as [[] [] [] [] [] [] [] []]; vm_compute; intros He;
    first [discriminate He | now left | now right].
Qed.

Lemma ToLower_empty (s : string) :
  strings.ToLower s = EmptyString -> s = EmptyString.
Proof.
  destruct s as [|c t]; [reflexivity|].
  destruct (Z.lt_ge_cases (utf8.byte c) 0x80) as [Hlt|Hge].
  - rewrite (ToLower_ascii c t Hlt). discriminate.
  - destruct (ToLower_wide c t Hge) as (x & rest & -> & _). discriminate.
Qed.

(** Only [y] and [Y] have the lower case [y]. *)
Lemma ToLower_y (s : string) :
  strings.ToLower s = "y"%string <-> s = "y"%string \/ s = "Y"%string.
Proof.
  split.
  - destruct s as [|c t]; [discriminate|].
    destruct (Z.lt_ge_cases (utf8.byte c) 0x80) as [Hlt|Hge].
    + rewrite (ToLower_ascii c t Hlt). intros [= Hc Ht].
      apply ToLower_empty in Ht as ->.
      destruct (lowerByte_y c Hc) as [-> | ->]; auto.
    + destruct (ToLower_wide c t Hge) as (x & rest & -> & Hx).
      intros [= Hc _]. contradiction.
  - intros [-> | ->]; reflexivity.
Qed.

(** ** The operand of [Scanln] *)

Lemma blankByte_space (c : ascii) :
  blankByte c = true ->
  utf8.byte c < 0x80 /\ (utf8.byte c =? 0x0A) = false /\
  unicode.IsSpace (utf8.byte c) = true.
Proof.
  destruct c as [[] [] [] [] [] [] [] []]; vm_compute;
    first [discriminate | intros _; repeat split; congruence].
Qed.

Lemma Scanln_blanks (lead s : string) :
  blanks lead = true -> fmt.Scanln (lead +:+ s) = fmt.Scanln s.
Proof.
  induction lead as [|c t IH]; [reflexivity|].
  unfold blanks; simpl. intros Hb. apply andb_prop in Hb as [Hc Ht].
  rewrite <- (IH Ht). rewrite append_String.
  destruct (blankByte_space c Hc) as (Hascii & Hnl & Hsp).
  unfold fmt.Scanln. rewrite (runes_ascii c _ Hascii).
  cbn [fmt.SkipSpace utf8.rune]. now rewrite Hnl, Hsp.
Qed.

(** A [y] or [Y] followed by white space or by nothing is the operand. *)
Lemma Scanln_letter (x sp : ascii) (rest : string) :
  x = "y"%char \/ x = "Y"%char ->
  blankByte sp = true \/ sp = LF ->
  fst (fmt.Scanln (String x EmptyString)) = String x EmptyString /\
  fst (fmt.Scanln (String x (String sp rest))) = String x EmptyString.
Proof.
  intros Hx Hsp.
  assert (Hxa : utf8.byte x < 0x80) by (destruct Hx as [-> | ->]; vm_compute; reflexivity).
  assert (Hxs : (utf8.byte x =? 0x0A) = false /\ unicode.IsSpace (utf8.byte x) = false)
    by (destruct Hx as [-> | ->]; vm_compute; auto).
  destruct Hxs as [Hxn Hxs].
  assert (Hs : utf8.byte sp < 0x80 /\ unicode.IsSpace (utf8.byte sp) = true).
  { destruct Hsp as [Hb | ->]; [|vm_compute; auto].
    destruct (blankByte_space sp Hb) as (? & ? & ?); auto. }
  destruct Hs as [Hsa Hss].
  split.
  - destruct Hx as [-> | ->]; reflexivity.
  - unfold fmt.Scanln. rewrite (runes_ascii x _ Hxa), (runes_ascii sp _ Hsa).
    cbn [fmt.SkipSpace fmt.token utf8.rune]. rewrite Hxn, Hxs.
    cbn [fmt.token utf8.rune fst]. rewrite Hxs, Hss.
    destruct Hx as [-> | ->]; reflexivity.
Qed.

(* ===================================================================== *)
(** * Properties of the program                                          *)
(* ===================================================================== *)

Section Proofs.

Context {Time : Type} `{TimeJSON Time}.

(** ** How the functions use the world *)

Lemma advance_0 (w : World Time) : advance 0 w = w.
Proof. now destruct w. Qed.

Lemma advance_advance (n m : nat) (w : World Time) :
  advance n (advance m w) = advance (n + m) w.
Proof. unfold advance; simpl. f_equal. lia. Qed.

Lemma reading_same {A : Type} (m : IO Time A) (w : World Time) :
  reading Time m -> m w = (fst (m w), w).
Proof. intros Hm. specialize (Hm w 0%nat). now rewrite advance_0 in Hm. Qed.

Lemma reading_ret {A : Type} (a : A) : reading Time (ret a).
Proof. intros w n. reflexivity. Qed.

Lemma reading_bind {A B : Type} (m : IO Time A) (f : A -> IO Time B) :
  reading Time m -> (forall a, reading Time (f a)) -> reading Time (bind m f).
Proof.
  intros Hm Hf w n. unfold bind.
  rewrite (Hm w n), (reading_same m w Hm).
  apply Hf.
Qed.

Lemma ticking_ret {A : Type} (a : A) : ticking Time (ret a).
Proof. intros w. exists 0%nat. now rewrite advance_0. Qed.

Lemma ticking_reading {A : Type} (m : IO Time A) : reading Time m -> ticking Time m.
Proof.
  intros Hm w. exists 0%nat. rewrite (reading_same m w Hm), advance_0.
  reflexivity.
Qed.

Lemma ticking_bind {A B : Type} (m : IO Time A) (f : A -> IO Time B) :
  ticking Time m -> (forall a, ticking Time (f a)) -> ticking Time (bind m f).
Proof.
  intros Hm Hf w. unfold bind.
  destruct (Hm w) as [n Hn]. destruct (m w) as [a w1]; simpl in Hn; subst w1.
  destruct (Hf a (advance n w)) as [k Hk].
  exists (k + n)%nat. now rewrite Hk, advance_advance.
Qed.

Lemma time_Now_run (w : World Time) :
  time_Now w = (clock w (ticks w), advance 1 w).
Proof. reflexivity. Qed.

Lemma ticking_time_Now : ticking Time time_Now.
Proof. intros w. now exists 1%nat. Qed.

Lemma reading_getConfigPath : reading Time getConfigPath.
Proof.
  intros [] n. unfold getConfigPath, bind, os_UserHomeDir, os_MkdirAll, gets, ret.
  unfold advance; simpl.
  destruct homeDir0; [|reflexivity].
  now destruct (decide _).
Qed.

Lemma reading_loadStoredData : reading Time loadStoredData.
Proof.
  intros w n. unfold loadStoredData, bind.
  pose proof (reading_getConfigPath w n) as En.
  pose proof (reading_same _ w reading_getConfigPath) as E0.
  destruct (getConfigPath w) as [path w0]; simpl in En, E0.
  injection E0 as ->. rewrite En. clear En.
  destruct path as [path|err]; [|reflexivity].
  destruct w. unfold os_Stat_IsNotExist, os_ReadFile, gets, ret, advance; simpl.
  destruct (files0 !! path) as [[|file]|] eqn:E; simpl; rewrite ?E;
    [reflexivity| |reflexivity].
  now destruct (json_Unmarshal file emptyData) as [data [err|]].
Qed.

Lemma reading_runFzf (items : list string) (prompt : string) :
  reading Time (runFzf items prompt).
Proof.
  intros [] n. unfold runFzf, bind, gets, ret, advance; simpl.
  destruct (fzf0 items prompt) as [| |code output]; try reflexivity.
  repeat match goal with
         | |- context [if ?b then _ else _] => destruct b
         end; reflexivity.
Qed.

Lemma addOrUpdateEntry_world (entries : list (StoredEntry Time)) (value : string)
    (w : World Time) :
  snd (addOrUpdateEntry entries value w) = advance 1 w.
Proof.
  unfold addOrUpdateEntry, bind. rewrite time_Now_run.
  now destruct (indexOfValue entries value).
Qed.

Lemma ticking_appendTo (c : category) (config : SSHConfig Time) (value : string) :
  ticking Time (appendTo c config value).
Proof. intros w. exists 1%nat. reflexivity. Qed.

Lemma ticking_forEach {A B : Type} (body : B -> A -> IO Time B) (l : list A) :
  (forall acc x, ticking Time (body acc x)) ->
  forall acc, ticking Time (forEach body l acc).
Proof.
  intros Hbody. induction l as [|x l IH]; intros acc; simpl.
  - apply ticking_ret.
  - apply ticking_bind; [apply Hbody | intros acc'; apply IH].
Qed.

Lemma ticking_scanLine (config : SSHConfig Time) (text : string) :
  ticking Time (scanLine config text).
Proof.
  unfold scanLine.
  repeat match goal with
         | |- context [if ?b then _ else _] => destruct b
         end;
    first [ apply ticking_ret | apply ticking_appendTo
          | apply ticking_forEach; intros; apply ticking_appendTo ].
Qed.

Lemma ticking_loadSSHConfig : ticking Time loadSSHConfig.
Proof.
  unfold loadSSHConfig.
  apply ticking_bind; [apply ticking_reading; intros w n; reflexivity|].
  intros [home|err]; [|apply ticking_ret].
  apply ticking_bind; [apply ticking_reading; intros w n; reflexivity|].
  intros user. apply ticking_bind.
  { destruct user; [apply ticking_appendTo | apply ticking_ret]. }
  intros config. apply ticking_bind; [apply ticking_reading; intros w n; reflexivity|].
  intros file. apply ticking_bind.
  { destruct file; [|apply ticking_ret].
    apply ticking_forEach. intros; apply ticking_scanLine. }
  intros config'. apply ticking_bind; [apply ticking_reading, reading_loadStoredData|].
  intros [data [err|]]; apply ticking_ret.
Qed.

(** ** History entries: [addOrUpdateEntry] *)

Lemma addOrUpdateEntry_result (entries : list (StoredEntry Time))
    (value : string) (w : World Time) :
  fst (addOrUpdateEntry entries value w) =
  match indexOfValue entries value with
  | Some i => alter (touch (clock w (ticks w))) i entries
  | None =>
      entries ++ [{| Value := value; LastUsed := clock w (ticks w);
                     CreatedAt := clock w (ticks w) |}]
  end.
Proof.
  unfold addOrUpdateEntry, bind. rewrite time_Now_run.
  now destruct (indexOfValue entries value).
Qed.

Lemma indexOfValue_None (entries : list (StoredEntry Time)) (value : string) :
  indexOfValue entries value = None <-> value ∉ getValues entries.
Proof.
  induction entries as [|e l IH]; simpl.
  - split; [intros _; apply not_elem_of_nil | reflexivity].
  - rewrite not_elem_of_cons.
    destruct (String.eqb_spec (Value e) value) as [Heq|Hne].
    + split; [discriminate | intros [Hv _]; congruence].
    + destruct (indexOfValue l value) as [i|].
      * split; [discriminate|]. intros [_ Hl]. now apply IH in Hl.
      * split; [|reflexivity]. intros _. split; [congruence | now apply IH].
Qed.

Lemma indexOfValue_Some (entries : list (StoredEntry Time)) (value : string)
    (i : nat) :
  indexOfValue entries value = Some i ->
  exists before entry after,
    entries = before ++ entry :: after /\ length before = i /\
    Value entry = value /\ (value ∉ getValues before).
Proof.
  revert i; induction entries as [|e l IH]; intros i; simpl; [discriminate|].
  destruct (String.eqb_spec (Value e) value) as [Heq|Hne].
  - intros [= <-]. exists [], e, l. repeat split; auto. apply not_elem_of_nil.
  - destruct (indexOfValue l value) as [j|]; [|discriminate].
    intros [= <-]. destruct (IH j eq_refl) as (before & entry & after & -> & <- & Hv & Hnot).
    exists (e :: before), entry, after. repeat split; auto.
    simpl. rewrite not_elem_of_cons. split; [congruence | assumption].
Qed.

Lemma alter_middle {A : Type} (f : A -> A) (before : list A) (x : A)
    (after : list A) :
  alter f (length before) (before ++ x :: after) = before ++ f x :: after.
Proof.
  rewrite alter_app_r_alt by lia.
  now replace (length before - length before)%nat with 0%nat by lia.
Qed.

Lemma getValues_app (a b : list (StoredEntry Time)) :
  getValues (a ++ b) = getValues a ++ getValues b.
Proof. apply map_app. Qed.

(** Refreshing an entry changes neither the values nor the creation
    times of the list. *)
Lemma alter_touch (now : Time) (i : nat) (entries : list (StoredEntry Time)) :
  getValues (alter (touch now) i entries) = getValues entries /\
  map CreatedAt (alter (touch now) i entries) = map CreatedAt entries /\
  length (alter (touch now) i entries) = length entries.
Proof.
  revert i; induction entries as [|e l IH]; intros [|i]; auto.
  destruct (IH i) as (Hv & Hc & Hl).
  change (alter (touch now) (S i) (e :: l)) with (e :: alter (touch now) i l).
  simpl. now rewrite Hv, Hc, Hl.
Qed.

Lemma addOrUpdateEntry_NoDup (entries : list (StoredEntry Time))
    (value : string) (w : World Time) :
  NoDup (getValues entries) ->
  NoDup (getValues (fst (addOrUpdateEntry entries value w))).
Proof.
  intros Hnd. rewrite addOrUpdateEntry_result.
  destruct (indexOfValue entries value) as [i|] eqn:Hi.
  - now rewrite (proj1 (alter_touch _ i entries)).
  - apply indexOfValue_None in Hi.
    rewrite getValues_app. simpl.
    apply NoDup_app. repeat split; auto.
    + intros x Hx Hx'. apply list_elem_of_singleton in Hx'. now subst.
    + apply NoDup_singleton.
Qed.

Lemma forEach_addOrUpdateEntry_NoDup (values : list string)
    (entries : list (StoredEntry Time)) (w : World Time) :
  NoDup (getValues entries) ->
  NoDup (getValues (fst (forEach addOrUpdateEntry values entries w))).
Proof.
  revert entries w; induction values as [|v vs IH]; intros entries w Hnd.
  - exact Hnd.
  - simpl. unfold bind.
    pose proof (addOrUpdateEntry_NoDup entries v w Hnd) as Hstep.
    destruct (addOrUpdateEntry entries v w) as [entries' w1].
    now apply IH.
Qed.

(** C3. [addOrUpdateEntry] keeps the values of a list unique, over any
    number of calls. When an entry already has the value, only the
    [LastUsed] of that entry is set to the current time: its [CreatedAt]
    stays and the list does not grow, so inserting the same value again
    changes neither the values nor the creation times. When no entry has
    the value, exactly one entry is appended, with [CreatedAt] and
    [LastUsed] both equal to the current time. *)
Theorem addOrUpdateEntry_unique (entries : list (StoredEntry Time))
    (value : string) (w : World Time) :
  let now := clock w (ticks w) in
  let updated := fst (addOrUpdateEntry entries value w) in
  (NoDup (getValues entries) -> NoDup (getValues updated)) /\
  (forall values,
      NoDup (getValues entries) ->
      NoDup (getValues (fst (forEach addOrUpdateEntry values entries w)))) /\
  (value ∈ getValues entries ->
   exists before entry after,
     entries = before ++ entry :: after /\
     Value entry = value /\ (value ∉ getValues before) /\
     updated = before ++ ({| Value := value; LastUsed := now;
                             CreatedAt := CreatedAt entry |} :: after)) /\
  (value ∉ getValues entries ->
   updated = entries ++ [{| Value := value; LastUsed := now;
                            CreatedAt := now |}]) /\
  (forall w',
      let again := fst (addOrUpdateEntry updated value w') in
      length again = length updated /\
      getValues again = getValues updated /\
      map CreatedAt again = map CreatedAt updated).
Proof.
  intros now updated. subst updated.
  split; [apply addOrUpdateEntry_NoDup|].
  split; [intros values; apply forEach_addOrUpdateEntry_NoDup|].
  split; [|split].
  - intros Hin. rewrite addOrUpdateEntry_result.
    destruct (indexOfValue entries value) as [i|] eqn:Hi.
    + destruct (indexOfValue_Some _ _ _ Hi)
        as (before & entry & after & -> & <- & Hv & Hnot).
      exists before, entry, after. repeat split; auto.
      rewrite alter_middle. unfold touch. now rewrite Hv.
    + apply indexOfValue_None in Hi. contradiction.
  - intros Hnot. rewrite addOrUpdateEntry_result.
    apply indexOfValue_None in Hnot. now rewrite Hnot.
  - intros w'. cbv zeta.
    assert (Hin : value ∈ getValues (fst (addOrUpdateEntry entries value w))).
    { rewrite addOrUpdateEntry_result.
      destruct (indexOfValue entries value) as [i|] eqn:Hi.
      - rewrite (proj1 (alter_touch _ i entries)).
        destruct (indexOfValue_Some _ _ _ Hi)
          as (before & entry & after & -> & _ & <- & _).
        rewrite getValues_app. apply elem_of_app. right. simpl. left.
      - rewrite getValues_app. apply elem_of_app. right. simpl. left. }
    rewrite (addOrUpdateEntry_result (fst (addOrUpdateEntry entries value w))).
    destruct (indexOfValue (fst (addOrUpdateEntry entries value w)) value)
      as [j|] eqn:Hj.
    + destruct (alter_touch (clock w' (ticks w')) j
                  (fst (addOrUpdateEntry entries value w))) as (Hv & Hc & Hl).
      auto.
    + apply indexOfValue_None in Hj. contradiction.
Qed.

(** ** Interactive selector: [runFzf] *)

Lemma runFzf_result (items : list string) (prompt : string) (w : World Time) :
  fst (runFzf items prompt w) =
  match fzf w items prompt with
  | PipeFailed => (EmptyString, Some PipeError)
  | NotStarted => (EmptyString, Some ExecError)
  | Exited code output =>
      let lines := strings.Split output LF in
      if code =? 0 then
        if (2 <=? length lines)%nat then
          if String.eqb (strings.TrimSpace (nth 1 lines EmptyString)) ""
          then (strings.TrimSpace (nth 0 lines EmptyString), None)
          else (strings.TrimSpace (nth 1 lines EmptyString), None)
        else (strings.TrimSpace output, None)
      else if (code =? 1) && negb (String.eqb (nth 0 lines EmptyString) "")
           then (nth 0 lines EmptyString, None)
           else (EmptyString, Some (ExitError code))
  end.
Proof.
  unfold runFzf, bind, gets, ret.
  destruct (fzf w items prompt) as [| |code output]; try reflexivity.
  cbv zeta. destruct (code =? 0).
  - destruct (2 <=? _)%nat; [|reflexivity].
    now destruct (String.eqb _ "").
  - destruct (code =? 1); [|reflexivity].
    pose proof (Split_length output LF) as Hl.
    destruct (Nat.ltb_spec 0 (length (strings.Split output LF))); [|lia].
    cbn [andb]. now destruct (negb _).
Qed.

(** C7. When the picker exits with status 1 (no match, nothing selected)
    and the first line of its output, the typed query, is not empty,
    [runFzf] returns that line as the chosen value, with no error. The
    exit becomes an error only when that line is empty. Any other
    non-zero status, and a picker that could not be run, are errors. *)
Theorem runFzf_typed_query (items : list string) (prompt : string)
    (w : World Time) :
  (forall query rest,
      oneLine query = true -> query <> EmptyString ->
      fzf w items prompt = Exited 1 query \/
      fzf w items prompt = Exited 1 (query +:+ String LF rest) ->
      fst (runFzf items prompt w) = (query, None)) /\
  (forall rest,
      fzf w items prompt = Exited 1 EmptyString \/
      fzf w items prompt = Exited 1 (String LF rest) ->
      fst (runFzf items prompt w) = (EmptyString, Some (ExitError 1))) /\
  (forall code output,
      fzf w items prompt = Exited code output -> code <> 0 -> code <> 1 ->
      fst (runFzf items prompt w) = (EmptyString, Some (ExitError code))) /\
  (fzf w items prompt = NotStarted ->
   fst (runFzf items prompt w) = (EmptyString, Some ExecError)) /\
  (fzf w items prompt = PipeFailed ->
   fst (runFzf items prompt w) = (EmptyString, Some PipeError)).
Proof.
  repeat split.
  - intros query rest Hline Hne Hout. rewrite runFzf_result.
    assert (Hq : (query =? "")%string = false) by now apply String.eqb_neq.
    destruct Hout as [-> | ->]; cbv zeta.
    + rewrite (Split_oneLine query Hline). cbn. now rewrite Hq.
    + rewrite (Split_first query rest Hline). cbn. now rewrite Hq.
  - intros rest Hout. rewrite runFzf_result.
    destruct Hout as [-> | ->]; reflexivity.
  - intros code output Hout H0 H1. rewrite runFzf_result, Hout. cbv zeta.
    apply Z.eqb_neq in H0, H1. now rewrite H0, H1.
  - intros Hf. now rewrite runFzf_result, Hf.
  - intros Hf. now rewrite runFzf_result, Hf.
Qed.

(** ** Confirmation: [promptConfirmation] *)

Lemma promptConfirmation_result (cmd : string) (w : World Time) :
  promptConfirmation cmd w =
  (String.eqb (strings.ToLower (fst (fmt.Scanln (stdin w)))) "y", w).
Proof. reflexivity. Qed.

(** C5, as amended. [promptConfirmation] reads one operand with
    [Scanln], the first word of the input line, and returns true exactly
    when that word is [y] or [Y]. What follows the word on the line is not
    examined: leading blanks are skipped and a [y] followed by white space
    and more text still confirms. An empty line and the word [yes]
    decline. The input is read once and the world is left as it was. *)
Theorem promptConfirmation_first_word (cmd : string) (w : World Time) :
  (fst (promptConfirmation cmd w) = true <->
   fst (fmt.Scanln (stdin w)) = "y"%string \/
   fst (fmt.Scanln (stdin w)) = "Y"%string) /\
  snd (promptConfirmation cmd w) = w /\
  (forall lead x sp rest,
      blanks lead = true ->
      x = "y"%char \/ x = "Y"%char ->
      blankByte sp = true \/ sp = LF ->
      stdin w = lead +:+ String x EmptyString \/
      stdin w = lead +:+ String x (String sp rest) ->
      fst (promptConfirmation cmd w) = true) /\
  (stdin w = EmptyString \/ stdin w = String LF EmptyString \/
   stdin w = "yes"%string \/ stdin w = "yes" +:+ String LF EmptyString ->
   fst (promptConfirmation cmd w) = false).
Proof.
  rewrite promptConfirmation_result. cbn [fst snd].
  assert (Hiff : (strings.ToLower (fst (fmt.Scanln (stdin w))) =? "y")%string = true <->
                 fst (fmt.Scanln (stdin w)) = "y"%string \/
                 fst (fmt.Scanln (stdin w)) = "Y"%string).
  { rewrite String.eqb_eq. apply ToLower_y. }
  split; [exact Hiff|]. split; [reflexivity|]. split.
  - intros lead x sp rest Hlead Hx Hsp Hin. apply Hiff.
    destruct (Scanln_letter x sp rest Hx Hsp) as [H1 H2].
    destruct Hin as [-> | ->]; rewrite (Scanln_blanks lead _ Hlead);
      rewrite ?H1, ?H2; destruct Hx as [-> | ->]; auto.
  - intros [-> | [-> | [-> | ->]]]; reflexivity.
Qed.

(** ** The course of [main] *)

Lemma addOrUpdateEntry_run (entries : list (StoredEntry Time)) (value : string)
    (w : World Time) :
  addOrUpdateEntry entries value w
  = (fst (addOrUpdateEntry entries value w), advance 1 w).
Proof.
  rewrite <- (addOrUpdateEntry_world entries value w).
  now destruct (addOrUpdateEntry entries value w).
Qed.

(** The end of [main], from [saveStoredData] on. *)
Ltac run_to_the_end :=
  match goal with
  | |- context [saveStoredData ?d ?w1] =>
      destruct (saveStoredData d w1) as [? ?w5]
  end;
  rewrite promptConfirmation_result; cbv beta iota;
  match goal with
  | |- context [String.eqb ?s "y"] => destruct (String.eqb s "y")
  end;
  [ unfold executeSSH, gets; cbv beta iota;
    match goal with
    | |- context [ssh ?w5 ?c] => destruct (ssh w5 c)
    end |];
  do 5 (first [eexists; [exact 0%nat|] | eexists]); reflexivity.

(** The selections after the key, up to the jump host. *)
Ltac run_selections Hacc Hhost Hjump :=
  rewrite ?advance_advance;
  rewrite reading_runFzf, Hacc; cbv beta iota;
  rewrite addOrUpdateEntry_run, ?advance_advance; cbv beta iota;
  rewrite reading_runFzf, Hhost; cbv beta iota;
  rewrite addOrUpdateEntry_run, ?advance_advance; cbv beta iota;
  rewrite reading_runFzf, Hjump; cbv beta iota;
  cbn [setCategory Keys Accounts Hosts Jumps].

(** A run in which the configuration loads, the key list is not empty
    and the four selections succeed reaches [saveStoredData] with the
    loaded history updated by the selections, whatever error the load of
    the history reported. *)
Lemma main_course (w : World Time) (config : SSHConfig Time)
    (first : StoredEntry Time) (rest : list (StoredEntry Time))
    (key account host jump : string) :
  showVersion w = false ->
  fst (loadSSHConfig w) = Ok config ->
  configKeys config = first :: rest ->
  fst (runFzf (getValues (configKeys config)) "key" w) = (key, None) ->
  fst (runFzf (getValues (configAccounts config)) "account" w) = (account, None) ->
  fst (runFzf (getValues (configHosts config)) "host" w) = (host, None) ->
  fst (runFzf (getValues (configJumps config)) "jump" w) = (jump, None) ->
  let loaded := fst (fst (loadStoredData w)) in
  exists (n1 n2 n3 n4 : nat) (code : Z),
    fst (main w) =
    {| exit := Exit code;
       picks := [key; account; host; jump];
       storedData :=
         Some {| Keys := if String.eqb key (Value first) then Keys loaded
                         else fst (addOrUpdateEntry (Keys loaded) key (advance n1 w));
                 Accounts := fst (addOrUpdateEntry (Accounts loaded) account (advance n2 w));
                 Hosts := fst (addOrUpdateEntry (Hosts loaded) host (advance n3 w));
                 Jumps := if String.eqb jump "" then Jumps loaded
                          else fst (addOrUpdateEntry (Jumps loaded) jump (advance n4 w)) |};
       command := Some (sshCmd key account host jump) |}.
Proof.
  intros Hv Hc Hk Hkey Hacc Hhost Hjump loaded. subst loaded.
  destruct (ticking_loadSSHConfig w) as [n0 Hn0].
  unfold main, bind. unfold gets at 1. rewrite Hv.
  destruct (loadSSHConfig w) as [cfg w0]. simpl in Hc, Hn0. subst cfg w0.
  rewrite (reading_loadStoredData w n0).
  destruct (fst (loadStoredData w)) as [d0 e0]. cbn [fst].
  rewrite (reading_runFzf _ _ w n0), Hkey, Hk.
  destruct (key =? Value first)%string eqn:Ek; cbn [negb]; cbv beta.
  - unfold ret; cbv beta iota. run_selections Hacc Hhost Hjump.
    destruct (jump =? "")%string eqn:Ej; cbn [negb]; cbv beta.
    + run_to_the_end.
    + rewrite (addOrUpdateEntry_run (Jumps d0)); cbv beta iota.
      run_to_the_end.
  - rewrite addOrUpdateEntry_run. unfold ret; cbv beta iota.
    run_selections Hacc Hhost Hjump.
    destruct (jump =? "")%string eqn:Ej; cbn [negb]; cbv beta.
    + run_to_the_end.
    + rewrite (addOrUpdateEntry_run (Jumps d0)); cbv beta iota.
      run_to_the_end.
Qed.

Ltac not_reached Hs :=
  exfalso; destruct Hs as [Hs|Hs]; apply Hs; reflexivity.

(** Conversely, a run that reached [saveStoredData] went that way. *)
Lemma main_saved (w : World Time) :
  reached (fst (main w)) ->
  showVersion w = false /\
  exists config first rest key account host jump,
    fst (loadSSHConfig w) = Ok config /\
    configKeys config = first :: rest /\
    fst (runFzf (getValues (configKeys config)) "key" w) = (key, None) /\
    fst (runFzf (getValues (configAccounts config)) "account" w) = (account, None) /\
    fst (runFzf (getValues (configHosts config)) "host" w) = (host, None) /\
    fst (runFzf (getValues (configJumps config)) "jump" w) = (jump, None).
Proof.
  intros Hs. destruct (ticking_loadSSHConfig w) as [n0 Hn0].
  unfold main, bind in Hs. unfold gets at 1 in Hs.
  destruct (showVersion w); [not_reached Hs|]. split; [reflexivity|].
  destruct (loadSSHConfig w) as [[config|err] w0]; simpl in Hn0; subst w0;
    [|not_reached Hs].
  exists config.
  rewrite (reading_loadStoredData w n0) in Hs.
  destruct (fst (loadStoredData w)) as [d0 e0].
  rewrite (reading_runFzf _ _ w n0) in Hs.
  destruct (fst (runFzf _ "key" w)) as [key [e|]]; [not_reached Hs|].
  destruct (configKeys config) as [|first rest]; [not_reached Hs|].
  exists first, rest, key.
  destruct (key =? Value first)%string; cbn [negb] in Hs; cbv beta in Hs;
    [|rewrite addOrUpdateEntry_run in Hs]; unfold ret in Hs;
    cbv beta iota in Hs; rewrite ?advance_advance in Hs;
    rewrite reading_runFzf in Hs;
    (destruct (fst (runFzf _ "account" w)) as [account [e|]]; [not_reached Hs|]);
    rewrite addOrUpdateEntry_run, ?advance_advance in Hs; cbv beta iota in Hs;
    rewrite reading_runFzf in Hs;
    (destruct (fst (runFzf _ "host" w)) as [host [e|]]; [not_reached Hs|]);
    rewrite addOrUpdateEntry_run, ?advance_advance in Hs; cbv beta iota in Hs;
    rewrite reading_runFzf in Hs;
    (destruct (fst (runFzf _ "jump" w)) as [jump [e|]]; [not_reached Hs|]);
    exists account, host, jump; repeat split; reflexivity.
Qed.

(** ** Candidate aggregator: [loadSSHConfig] *)

Lemma forEach_appendTo_hosts (values : list string) (config : SSHConfig Time)
    (w : World Time) :
  let config' := fst (forEach (appendTo CHosts) values config w) in
  getValues (configHosts config') = getValues (configHosts config) ++ values /\
  configKeys config' = configKeys config /\
  configAccounts config' = configAccounts config /\
  configJumps config' = configJumps config.
Proof.
  revert config w; induction values as [|v vs IH]; intros config w; cbv zeta.
  - simpl. now rewrite app_nil_r.
  - simpl forEach. unfold bind.
    destruct (appendTo CHosts config v w) as [config1 w1] eqn:E.
    unfold appendTo, bind, createStoredEntry, bind, ret in E.
    rewrite time_Now_run in E. injection E as <- <-.
    destruct (IH {| configKeys := configKeys config;
                    configAccounts := configAccounts config;
                    configHosts := configHosts config ++
                      [{| Value := v; LastUsed := clock w (ticks w);
                          CreatedAt := clock w (ticks w) |}];
                    configJumps := configJumps config |} (advance 1 w))
      as (Hh & Hk & Ha & Hj).
    cbn [configKeys configAccounts configHosts configJumps] in Hh, Hk, Ha, Hj.
    rewrite Hh, Hk, Ha, Hj. repeat split.
    rewrite getValues_app. simpl. now rewrite <- app_assoc.
Qed.

(** No line of the configuration file adds a key candidate. *)
Lemma scanLine_keys (config : SSHConfig Time) (text : string) (w : World Time) :
  configKeys (fst (scanLine config text w)) = configKeys config.
Proof.
  unfold scanLine.
  destruct (strings.HasPrefix _ "Host ").
  - destruct (negb _); [|reflexivity]. apply forEach_appendTo_hosts.
  - destruct (strings.HasPrefix _ "User "); [reflexivity|].
    now destruct (strings.HasPrefix _ "ProxyJump ").
Qed.

Lemma forEach_scanLine_keys (lines : list string) (config : SSHConfig Time)
    (w : World Time) :
  configKeys (fst (forEach scanLine lines config w)) = configKeys config.
Proof.
  revert config w; induction lines as [|l ls IH]; intros config w;
    [reflexivity|].
  simpl. unfold bind.
  pose proof (scanLine_keys config l w) as Hl.
  destruct (scanLine config l w) as [config1 w1]. simpl in Hl.
  now rewrite IH.
Qed.

Lemma appendTo_run (c : category) (config : SSHConfig Time) (value : string)
    (w : World Time) :
  appendTo c config value w = (fst (appendTo c config value w), advance 1 w).
Proof. reflexivity. Qed.

(** The last step of [loadSSHConfig]: the history is appended when it
    loaded without error. *)
Lemma loadSSHConfig_merge (config : SSHConfig Time) (n : nat) (w : World Time) :
  fst (bind loadStoredData
         (fun '(storedData, err) =>
            match err with
            | None =>
                ret (Ok {| configKeys := configKeys config ++ Keys storedData;
                           configAccounts := configAccounts config ++ Accounts storedData;
                           configHosts := configHosts config ++ Hosts storedData;
                           configJumps := configJumps config ++ Jumps storedData |})
            | Some _ => ret (Ok config)
            end) (advance n w)) =
  Ok {| configKeys := configKeys config ++ Keys (mergedHistory w);
        configAccounts := configAccounts config ++ Accounts (mergedHistory w);
        configHosts := configHosts config ++ Hosts (mergedHistory w);
        configJumps := configJumps config ++ Jumps (mergedHistory w) |}.
Proof.
  unfold bind. rewrite (reading_loadStoredData w n). unfold mergedHistory.
  destruct (fst (loadStoredData w)) as [d [e|]]; cbn [fst].
  - unfold ret. cbn [fst Keys Accounts Hosts Jumps emptyData].
    rewrite !app_nil_r. now destruct config.
  - reflexivity.
Qed.

(** [loadSSHConfig] in three steps: the synthetic key of the current
    user, the lines of the configuration file, the history. *)
Lemma loadSSHConfig_result (w : World Time) (home : string) :
  homeDir w = Some home ->
  let seeded :=
    match currentUser w with
    | Some username => appendTo CKeys emptyConfig username w
    | None => (emptyConfig, w)
    end in
  let scanned :=
    match sshConfigs w !! sshConfigPath home with
    | Some lines => forEach scanLine lines (fst seeded) (snd seeded)
    | None => seeded
    end in
  fst (loadSSHConfig w) =
  Ok {| configKeys := configKeys (fst scanned) ++ Keys (mergedHistory w);
        configAccounts := configAccounts (fst scanned) ++ Accounts (mergedHistory w);
        configHosts := configHosts (fst scanned) ++ Hosts (mergedHistory w);
        configJumps := configJumps (fst scanned) ++ Jumps (mergedHistory w) |}.
Proof.
  intros Hhome seeded scanned. subst scanned seeded.
  unfold loadSSHConfig. unfold bind at 1. unfold os_UserHomeDir, gets at 1.
  rewrite Hhome. unfold bind at 1. unfold user_Current, gets at 1.
  fold (@emptyConfig Time). fold (sshConfigPath home).
  unfold bind at 1.
  destruct (currentUser w) as [username|].
  - rewrite appendTo_run. set (config1 := fst (appendTo CKeys emptyConfig username w)).
    unfold bind at 1. unfold os_Open, gets at 1.
    change (sshConfigs (advance 1 w)) with (sshConfigs w).
    unfold bind at 1. cbn [fst snd].
    destruct (sshConfigs w !! sshConfigPath home) as [lines|].
    + destruct (ticking_forEach scanLine lines ticking_scanLine config1 (advance 1 w))
        as [n Hn].
      destruct (forEach scanLine lines config1 (advance 1 w)) as [config2 w2].
      simpl in Hn. subst w2. rewrite advance_advance. cbn [fst].
      apply loadSSHConfig_merge.
    + unfold ret at 1. apply loadSSHConfig_merge.
  - unfold ret at 1.
    unfold bind at 1. unfold os_Open, gets at 1.
    unfold bind at 1. cbn [fst snd].
    destruct (sshConfigs w !! sshConfigPath home) as [lines|].
    + destruct (ticking_forEach scanLine lines ticking_scanLine emptyConfig w)
        as [n Hn].
      destruct (forEach scanLine lines emptyConfig w) as [config2 w2].
      simpl in Hn. subst w2. cbn [fst].
      apply loadSSHConfig_merge.
    + unfold ret at 1. rewrite <- (advance_0 w) at 1.
      apply loadSSHConfig_merge.
Qed.

Lemma addOrUpdateEntry_values (entries : list (StoredEntry Time))
    (value v : string) (w : World Time) :
  v ∈ getValues (fst (addOrUpdateEntry entries value w)) <->
  v ∈ getValues entries \/ v = value.
Proof.
  rewrite addOrUpdateEntry_result.
  destruct (indexOfValue entries value) as [i|] eqn:Hi.
  - rewrite (proj1 (alter_touch _ i entries)).
    split; [auto|]. intros [Hv | ->]; [assumption|].
    destruct (indexOfValue_Some _ _ _ Hi)
      as (before & entry & after & -> & _ & <- & _).
    rewrite getValues_app. apply elem_of_app. right. simpl. left.
  - rewrite getValues_app, elem_of_app. simpl.
    now rewrite list_elem_of_singleton.
Qed.

(** What a run that reached [saveStoredData] hands to it. *)
Lemma main_stored (w : World Time) :
  reached (fst (main w)) ->
  exists config first rest key account host jump (n1 n2 n3 n4 : nat),
    fst (loadSSHConfig w) = Ok config /\
    configKeys config = first :: rest /\
    picks (fst (main w)) = [key; account; host; jump] /\
    command (fst (main w)) = Some (sshCmd key account host jump) /\
    let loaded := fst (fst (loadStoredData w)) in
    storedData (fst (main w)) =
    Some {| Keys := if String.eqb key (Value first) then Keys loaded
                    else fst (addOrUpdateEntry (Keys loaded) key (advance n1 w));
            Accounts := fst (addOrUpdateEntry (Accounts loaded) account (advance n2 w));
            Hosts := fst (addOrUpdateEntry (Hosts loaded) host (advance n3 w));
            Jumps := if String.eqb jump "" then Jumps loaded
                     else fst (addOrUpdateEntry (Jumps loaded) jump (advance n4 w)) |}.
Proof.
  intros Hr.
  destruct (main_saved w Hr)
    as (Hv & config & first & rest & key & account & host & jump
        & Hc & Hk & Hkey & Hacc & Hhost & Hjump).
  destruct (main_course w config first rest key account host jump
              Hv Hc Hk Hkey Hacc Hhost Hjump)
    as (n1 & n2 & n3 & n4 & code & Hmain).
  exists config, first, rest, key, account, host, jump, n1, n2, n3, n4.
  now rewrite Hmain.
Qed.

(** The key candidates: the synthetic entry, when the current user is
    found, then the keys of the history. *)
Lemma candidate_keys (w : World Time) (home : string) :
  homeDir w = Some home ->
  exists config,
    fst (loadSSHConfig w) = Ok config /\
    configKeys config =
      match currentUser w with
      | Some user => [{| Value := user; LastUsed := clock w (ticks w);
                         CreatedAt := clock w (ticks w) |}]
      | None => []
      end ++ Keys (mergedHistory w).
Proof.
  intros Hhome.
  pose proof (loadSSHConfig_result w home Hhome) as Hload.
  cbv zeta in Hload. eexists. split; [exact Hload|].
  cbn [configKeys]. f_equal.
  destruct (sshConfigs w !! sshConfigPath home) as [lines|];
    [rewrite forEach_scanLine_keys|]; now destruct (currentUser w).
Qed.

(** With no key candidate, a key selection that succeeds is followed by
    the panic of the index expression. *)
Lemma main_panics (w : World Time) (config : SSHConfig Time) (key : string) :
  showVersion w = false ->
  fst (loadSSHConfig w) = Ok config ->
  configKeys config = [] ->
  fst (runFzf [] "key" w) = (key, None) ->
  exit (fst (main w)) = Panic "index out of range [0] with length 0".
Proof.
  intros Hv Hc Hk Hkey.
  destruct (ticking_loadSSHConfig w) as [n0 Hn0].
  unfold main, bind. unfold gets at 1. rewrite Hv.
  destruct (loadSSHConfig w) as [cfg w0]. simpl in Hc, Hn0. subst cfg w0.
  rewrite (reading_loadStoredData w n0).
  destruct (fst (loadStoredData w)) as [d0 e0]. cbn [fst].
  rewrite Hk. cbn [getValues map].
  rewrite (reading_runFzf _ _ w n0), Hkey.
  reflexivity.
Qed.

(** ** What is written back *)

(** C9. In every run whose jump-host selection resolves to the empty
    string, the jumps list handed to [saveStoredData] is the list that was
    loaded: the empty selection is not written back, and no run adds an
    entry whose value is the empty string to the jumps. *)
Theorem empty_jump_not_recorded (w : World Time) (d : StoredData Time) :
  storedData (fst (main w)) = Some d ->
  (forall key account host,
      picks (fst (main w)) = [key; account; host; EmptyString] ->
      Jumps d = Jumps (fst (fst (loadStoredData w)))) /\
  (EmptyString ∈ getValues (Jumps d) ->
   EmptyString ∈ getValues (Jumps (fst (fst (loadStoredData w))))).
Proof.
  intros Hd.
  assert (Hr : reached (fst (main w))) by (left; congruence).
  destruct (main_stored w Hr)
    as (config & first & rest & key & account & host & jump
        & n1 & n2 & n3 & n4 & _ & _ & Hp & _ & Hs).
  cbv zeta in Hs. rewrite Hd in Hs. injection Hs as ->. cbn [Jumps].
  split.
  - intros key' account' host' Hp'. rewrite Hp in Hp'.
    injection Hp' as _ _ _ ->. reflexivity.
  - destruct (String.eqb_spec jump "") as [->|Hne]; [auto|].
    intros Hin. apply addOrUpdateEntry_values in Hin as [Hin|Hin];
      [assumption | congruence].
Qed.

(** C2, as amended. In every run in which the home directory and the
    current user are found, whatever the history holds, the first key
    candidate is the synthetic entry of the current user, created at the
    time of the run and followed by the keys of the history; and when the
    key finally selected is that user name, the keys handed to
    [saveStoredData] are the keys that were loaded: the synthetic entry is
    not written back. *)
Theorem current_user_key (w : World Time) (home user : string) :
  homeDir w = Some home ->
  currentUser w = Some user ->
  (exists config,
      fst (loadSSHConfig w) = Ok config /\
      configKeys config =
        {| Value := user; LastUsed := clock w (ticks w);
           CreatedAt := clock w (ticks w) |} :: Keys (mergedHistory w) /\
      user ∈ getValues (configKeys config)) /\
  (forall account host jump d,
      picks (fst (main w)) = [user; account; host; jump] ->
      storedData (fst (main w)) = Some d ->
      Keys d = Keys (fst (fst (loadStoredData w)))).
Proof.
  intros Hhome Huser.
  pose proof (loadSSHConfig_result w home Hhome) as Hload.
  cbv zeta in Hload. rewrite Huser in Hload.
  assert (Hkeys :
    configKeys
      (fst match sshConfigs w !! sshConfigPath home with
           | Some lines =>
               forEach scanLine lines (fst (appendTo CKeys emptyConfig user w))
                 (snd (appendTo CKeys emptyConfig user w))
           | None => appendTo CKeys emptyConfig user w
           end)
    = [{| Value := user; LastUsed := clock w (ticks w);
          CreatedAt := clock w (ticks w) |}]).
  { destruct (sshConfigs w !! sshConfigPath home) as [lines|];
      [rewrite forEach_scanLine_keys|]; reflexivity. }
  rewrite Hkeys in Hload. split.
  - eexists. split; [exact Hload|]. split; [reflexivity|].
    simpl. left.
  - intros account host jump d Hp Hd.
    assert (Hr : reached (fst (main w))) by (left; congruence).
    destruct (main_stored w Hr)
      as (config & first & rest & key & account' & host' & jump'
          & n1 & n2 & n3 & n4 & Hc & Hk & Hp' & _ & Hs).
    cbv zeta in Hs. rewrite Hd in Hs. injection Hs as ->. cbn [Keys].
    rewrite Hp in Hp'. injection Hp' as <- _ _ _.
    rewrite Hload in Hc. injection Hc as <-. cbn [configKeys] in Hk.
    injection Hk as <- _. cbn [Value].
    now rewrite String.eqb_refl.
Qed.

(** ** Connection command *)

(** C6. The connection string is [key@account@host] when the jump host
    is empty, with no trailing [@], and [key@account@host@jump] when it is
    not; the four components are copied as they are. The command a run
    shows and launches is this string of its four selections. *)
Theorem sshCmd_verbatim (key account host : string) :
  sshCmd key account host EmptyString
  = key +:+ "@" +:+ account +:+ "@" +:+ host /\
  (forall (c : ascii) (jump : string),
      sshCmd key account host (String c jump)
      = key +:+ "@" +:+ account +:+ "@" +:+ host +:+ "@" +:+ String c jump) /\
  (forall (w : World Time) (shown : string),
      command (fst (main w)) = Some shown ->
      exists key' account' host' jump',
        picks (fst (main w)) = [key'; account'; host'; jump'] /\
        shown = sshCmd key' account' host' jump').
Proof.
  split; [reflexivity|]. split.
  - intros c jump. unfold sshCmd, fmt.Sprintf_s_at_s, fmt.Sprintf_s_at_s_at_s.
    cbn [String.eqb negb].
    now rewrite !append_assoc.
  - intros w shown Hshown.
    assert (Hr : reached (fst (main w))) by (right; congruence).
    destruct (main_stored w Hr)
      as (config & first & rest & key' & account' & host' & jump'
          & n1 & n2 & n3 & n4 & _ & _ & Hp & Hcmd & _).
    exists key', account', host', jump'. split; [exact Hp|]. congruence.
Qed.

(** ** Loading the history *)

Lemma getConfigPath_result (w : World Time) (home : string) :
  homeDir w = Some home ->
  configDir home ∉ blocked w ->
  fst (getConfigPath w) = Ok (historyPath home).
Proof.
  intros Hhome Hdir.
  unfold getConfigPath, bind, os_UserHomeDir, os_MkdirAll, gets.
  rewrite Hhome. fold (configDir home).
  now destruct (decide (configDir home ∈ blocked w)).
Qed.

Lemma loadStoredData_result (w : World Time) (home : string) :
  homeDir w = Some home ->
  configDir home ∉ blocked w ->
  fst (loadStoredData w) =
  match files w !! historyPath home with
  | None => (emptyData, None)
  | Some Locked =>
      (emptyData,
       Some (Errorf "could not read config file"
               (PathError "open" (historyPath home))))
  | Some (File file) =>
      match json_Unmarshal file emptyData with
      | (data, Some err) => (data, Some (Errorf "could not parse config file" err))
      | (data, None) => (data, None)
      end
  end.
Proof.
  intros Hhome Hdir.
  pose proof (getConfigPath_result w home Hhome Hdir) as Hpath.
  pose proof (reading_same _ w reading_getConfigPath) as Hsame.
  unfold loadStoredData, bind. rewrite Hsame, Hpath.
  unfold os_Stat_IsNotExist, os_ReadFile, gets.
  destruct (files w !! historyPath home) as [[|file]|] eqn:E;
    cbv beta iota; rewrite ?E; cbv beta iota; [reflexivity| |reflexivity].
  now destruct (json_Unmarshal file emptyData) as [data [err|]].
Qed.

(** Every value of the loaded history is in what a run hands to
    [saveStoredData]. *)
Lemma main_keeps_history (w : World Time) (d : StoredData Time)
    (c : category) (v : string) :
  storedData (fst (main w)) = Some d ->
  v ∈ getValues (getCategory c (fst (fst (loadStoredData w)))) ->
  v ∈ getValues (getCategory c d).
Proof.
  intros Hd.
  assert (Hr : reached (fst (main w))) by (left; congruence).
  destruct (main_stored w Hr)
    as (config & first & rest & key & account & host & jump
        & n1 & n2 & n3 & n4 & _ & _ & _ & _ & Hs).
  cbv zeta in Hs. rewrite Hd in Hs. injection Hs as ->.
  destruct c; cbn [getCategory Keys Accounts Hosts Jumps]; intros Hv.
  - destruct (String.eqb key (Value first)); [assumption|].
    apply addOrUpdateEntry_values; auto.
  - apply addOrUpdateEntry_values; auto.
  - apply addOrUpdateEntry_values; auto.
  - destruct (String.eqb jump ""); [assumption|].
    apply addOrUpdateEntry_values; auto.
Qed.

(** C8, as amended. When the history file is absent, [loadStoredData]
    returns the empty [StoredData] and no error. When the file cannot be
    read, or its bytes are not a JSON text, it returns the empty
    [StoredData] with a descriptive error. When the file is a JSON text
    that the decoder rejects, it returns a descriptive error together
    with what the decoder had stored by then, which need not be empty.
    In every case [main] drops the error and goes on with the lists it
    was given: a run whose selections succeed reaches [saveStoredData]
    with every loaded value still in place. *)
Theorem loadStoredData_soft_failure (w : World Time) (home : string) :
  homeDir w = Some home ->
  configDir home ∉ blocked w ->
  (files w !! historyPath home = None ->
   fst (loadStoredData w) = (emptyData, None)) /\
  (files w !! historyPath home = Some Locked ->
   fst (loadStoredData w) =
   (emptyData,
    Some (Errorf "could not read config file"
            (PathError "open" (historyPath home))))) /\
  (files w !! historyPath home = Some (File NotJSON) ->
   fst (loadStoredData w) =
   (emptyData, Some (Errorf "could not parse config file" SyntaxError))) /\
  (forall doc data err,
      files w !! historyPath home = Some (File (Text doc)) ->
      json_Unmarshal (Text doc) emptyData = (data, Some err) ->
      fst (loadStoredData w) =
      (data, Some (Errorf "could not parse config file" err))) /\
  (forall config first rest key account host jump,
      showVersion w = false ->
      fst (loadSSHConfig w) = Ok config ->
      configKeys config = first :: rest ->
      fst (runFzf (getValues (configKeys config)) "key" w) = (key, None) ->
      fst (runFzf (getValues (configAccounts config)) "account" w) = (account, None) ->
      fst (runFzf (getValues (configHosts config)) "host" w) = (host, None) ->
      fst (runFzf (getValues (configJumps config)) "jump" w) = (jump, None) ->
      exists d,
        storedData (fst (main w)) = Some d /\
        forall c v,
          v ∈ getValues (getCategory c (fst (fst (loadStoredData w)))) ->
          v ∈ getValues (getCategory c d)).
Proof.
  intros Hhome Hdir.
  pose proof (loadStoredData_result w home Hhome Hdir) as Hload.
  repeat split.
  - intros Hf. now rewrite Hload, Hf.
  - intros Hf. now rewrite Hload, Hf.
  - intros Hf. now rewrite Hload, Hf.
  - intros doc data err Hf Hu. now rewrite Hload, Hf, Hu.
  - intros config first rest key account host jump Hv Hc Hk Hkey Hacc Hhost Hjump.
    destruct (main_course w config first rest key account host jump
                Hv Hc Hk Hkey Hacc Hhost Hjump)
      as (n1 & n2 & n3 & n4 & code & Hmain).
    eexists. split; [rewrite Hmain; reflexivity|].
    intros c v. apply main_keeps_history. now rewrite Hmain.
Qed.

(** ** The lines of the configuration file *)

Lemma mergedHistory_absent (w : World Time) (home : string) :
  homeDir w = Some home ->
  files w !! historyPath home = None ->
  mergedHistory w = emptyData.
Proof.
  intros Hhome Hf. unfold mergedHistory.
  destruct (decide (configDir home ∈ blocked w)) as [Hb|Hb].
  - unfold loadStoredData, bind, getConfigPath, bind, os_UserHomeDir,
      os_MkdirAll, gets.
    rewrite Hhome. fold (configDir home).
    now destruct (decide (configDir home ∈ blocked w)).
  - now rewrite (loadStoredData_result w home Hhome Hb), Hf.
Qed.

(** C1, as amended. A line that, trimmed, begins with [Host] and a
    space contributes all the white-space separated names that follow
    when no wildcard character occurs anywhere after the keyword, and
    contributes nothing when one does; it changes no other list. For the
    configuration file of the example ([Host foo bar], [Host *wild*],
    [User svc1], [ProxyJump jmp1]) the file contributes exactly the
    hosts [foo] and [bar], the account [svc1] and the jump [jmp1], ahead
    of the entries of the history; without a history file the hosts are
    exactly [foo] and [bar]. *)
Theorem host_lines (w : World Time) :
  (forall config text,
      strings.HasPrefix (strings.TrimSpace text) "Host " = true ->
      let names := strings.TrimPrefix (strings.TrimSpace text) "Host " in
      let config' := fst (scanLine config text w) in
      getValues (configHosts config') =
        getValues (configHosts config) ++
        (if strings.Contains names "*" then [] else strings.Fields names) /\
      configKeys config' = configKeys config /\
      configAccounts config' = configAccounts config /\
      configJumps config' = configJumps config) /\
  (forall home,
      homeDir w = Some home ->
      sshConfigs w !! sshConfigPath home = Some exampleConfig ->
      exists config,
        fst (loadSSHConfig w) = Ok config /\
        getValues (configHosts config) =
          ["foo"; "bar"]%string ++ getValues (Hosts (mergedHistory w)) /\
        getValues (configAccounts config) =
          ["svc1"]%string ++ getValues (Accounts (mergedHistory w)) /\
        getValues (configJumps config) =
          ["jmp1"]%string ++ getValues (Jumps (mergedHistory w)) /\
        (files w !! historyPath home = None ->
         getValues (configHosts config) = ["foo"; "bar"]%string)).
Proof.
  split.
  - intros config text Hhost names config'. subst names config'.
    unfold scanLine. rewrite Hhost.
    destruct (strings.Contains _ "*"); cbn [negb].
    + cbn [ret fst]. now rewrite app_nil_r.
    + apply forEach_appendTo_hosts.
  - intros home Hhome Hfile.
    pose proof (loadSSHConfig_result w home Hhome) as Hload.
    cbv zeta in Hload. rewrite Hfile in Hload.
    eexists. split; [exact Hload|].
    cbn [configHosts configAccounts configJumps].
    rewrite !getValues_app.
    assert (Hscan :
      forall seeded : SSHConfig Time * World Time,
        configHosts (fst seeded) = [] -> configAccounts (fst seeded) = [] ->
        configJumps (fst seeded) = [] ->
        let scanned := fst (forEach scanLine exampleConfig (fst seeded) (snd seeded)) in
        getValues (configHosts scanned) = ["foo"; "bar"]%string /\
        getValues (configAccounts scanned) = ["svc1"]%string /\
        getValues (configJumps scanned) = ["jmp1"]%string).
    { intros [[k a h j] w0] Hh Ha Hj. simpl in Hh, Ha, Hj. subst.
      vm_compute. auto. }
    destruct (Hscan (match currentUser w with
                     | Some username => appendTo CKeys emptyConfig username w
                     | None => (emptyConfig, w)
                     end)) as (Hh & Ha & Hj);
      try (destruct (currentUser w); reflexivity).
    cbv zeta in Hh, Ha, Hj. rewrite Hh, Ha, Hj.
    repeat split.
    intros Habsent. rewrite (mergedHistory_absent w home Hhome Habsent).
    reflexivity.
Qed.

(** ** Saving and loading *)

Lemma fieldOf_entryFields :
  json.fieldOf entryFields "value" = Some FValue /\
  json.fieldOf entryFields "last_used" = Some FLastUsed /\
  json.fieldOf entryFields "created_at" = Some FCreatedAt.
Proof. repeat split; reflexivity. Qed.

Lemma fieldOf_dataFields :
  json.fieldOf dataFields "keys" = Some CKeys /\
  json.fieldOf dataFields "accounts" = Some CAccounts /\
  json.fieldOf dataFields "hosts" = Some CHosts /\
  json.fieldOf dataFields "jumps" = Some CJumps.
Proof. repeat split; reflexivity. Qed.

(** A portable entry is decoded from its own document, whatever the
    slice element held before. *)
Lemma valueEntry_marshalEntry (e old : StoredEntry Time) (v : json.value)
    (saved : option error) :
  portable e ->
  marshalEntry e = Some v ->
  valueEntry v old saved = Decoded e saved None.
Proof.
  intros (Hvalid & (s1 & Ha1 & Hp1) & (s2 & Ha2 & Hp2)).
  unfold marshalEntry, Time_MarshalJSON. rewrite Ha1, Ha2. intros [= <-].
  destruct fieldOf_entryFields as (Hf1 & Hf2 & Hf3).
  cbn [valueEntry objectEntry]. rewrite Hf1. cbn [storeString].
  rewrite Hf2. cbn [Time_UnmarshalJSON LastUsed]. rewrite Hp1.
  rewrite Hf3. cbn [Time_UnmarshalJSON CreatedAt]. rewrite Hp2.
  cbn [Value LastUsed CreatedAt]. rewrite (coerce_valid _ Hvalid).
  now destruct e.
Qed.

Lemma arrayEntries_marshalEntries (l old : list (StoredEntry Time))
    (vs : list json.value) (saved : option error) :
  Forall portable l ->
  marshalEntries l = Some vs ->
  arrayEntries vs old saved = Decoded l saved None.
Proof.
  revert old vs; induction l as [|e l IH]; intros old vs Hl; simpl.
  - now intros [= <-].
  - apply Forall_cons in Hl as [He Hl].
    destruct (marshalEntry e) as [v|] eqn:Ev; [|discriminate].
    destruct (marshalEntries l) as [vs'|] eqn:Evs; [|discriminate].
    intros [= <-]. cbn [arrayEntries].
    rewrite (valueEntry_marshalEntry e _ v saved He Ev). cbn [aborted target savedError].
    now rewrite (IH (tl old) vs' Hl eq_refl).
Qed.

(** What [json.MarshalIndent] writes of portable data, [json.Unmarshal]
    reads back as the same data. *)
Lemma Unmarshal_MarshalIndent (d : StoredData Time) (file : content) :
  Forall portable (allEntries d) ->
  json_MarshalIndent d = Ok file ->
  json_Unmarshal file emptyData = (d, None).
Proof.
  unfold allEntries. rewrite !Forall_app. intros (Hk & Ha & Hh & Hj).
  unfold json_MarshalIndent.
  destruct (marshalEntries (Keys d)) as [k|] eqn:Ek; [|discriminate].
  destruct (marshalEntries (Accounts d)) as [a|] eqn:Ea; [|discriminate].
  destruct (marshalEntries (Hosts d)) as [h|] eqn:Eh; [|discriminate].
  destruct (marshalEntries (Jumps d)) as [j|] eqn:Ej; [|discriminate].
  intros [= <-].
  destruct fieldOf_dataFields as (Hf1 & Hf2 & Hf3 & Hf4).
  cbn [json_Unmarshal valueData objectData].
  rewrite Hf1. cbn [valueEntries].
  rewrite (arrayEntries_marshalEntries _ _ k None Hk Ek). cbn [aborted target savedError].
  rewrite Hf2. cbn [valueEntries].
  rewrite (arrayEntries_marshalEntries _ _ a None Ha Ea). cbn [aborted target savedError].
  rewrite Hf3. cbn [valueEntries].
  rewrite (arrayEntries_marshalEntries _ _ h None Hh Eh). cbn [aborted target savedError].
  rewrite Hf4. cbn [valueEntries].
  rewrite (arrayEntries_marshalEntries _ _ j None Hj Ej). cbn [aborted target savedError].
  cbn [setCategory getCategory emptyData Keys Accounts Hosts Jumps].
  now destruct d.
Qed.

(** A save that succeeds leaves the document of the data in the history
    file of a world that is otherwise the same. *)
Lemma saveStoredData_written (d : StoredData Time) (w w' : World Time) :
  saveStoredData d w = (None, w') ->
  exists home file,
    homeDir w' = Some home /\ (configDir home ∉ blocked w') /\
    json_MarshalIndent d = Ok file /\
    files w' !! historyPath home = Some (File file).
Proof.
  intros Hs. unfold saveStoredData, bind in Hs.
  rewrite (reading_same _ w reading_getConfigPath) in Hs.
  destruct (homeDir w) as [home|] eqn:Hhome.
  2: { unfold getConfigPath, bind, os_UserHomeDir, gets in Hs.
       rewrite Hhome in Hs. discriminate Hs. }
  destruct (decide (configDir home ∈ blocked w)) as [Hb|Hb].
  { unfold getConfigPath, bind, os_UserHomeDir, os_MkdirAll, gets in Hs.
    rewrite Hhome in Hs. fold (configDir home) in Hs.
    destruct (decide (configDir home ∈ blocked w)); [discriminate Hs|contradiction]. }
  rewrite (getConfigPath_result w home Hhome Hb) in Hs.
  destruct (json_MarshalIndent d) as [file|err]; [|discriminate Hs].
  exists home, file. unfold os_WriteFile in Hs.
  destruct (files w !! historyPath home) as [[|old]|]; cbv beta iota in Hs;
    try discriminate Hs;
    injection Hs as <-; cbn [homeDir blocked files];
    (repeat split; [assumption | assumption | apply lookup_insert_eq]).
Qed.

Lemma sameEntries_refl (d : StoredData Time) : sameEntries d d.
Proof. repeat split; reflexivity. Qed.

(** C4, as amended. For every [StoredData] whose values are valid UTF-8
    and whose timestamps have a text that parses back to them, a save
    that succeeds followed by a load yields, without error, a
    [StoredData] whose four lists hold the same (value, createdAt) pairs
    as the saved one. *)
Theorem save_then_load (d : StoredData Time) (w w' : World Time) :
  Forall portable (allEntries d) ->
  saveStoredData d w = (None, w') ->
  exists d',
    fst (loadStoredData w') = (d', None) /\ sameEntries d d'.
Proof.
  intros Hd Hsave.
  destruct (saveStoredData_written d w w' Hsave)
    as (home & file & Hhome & Hdir & Hfile & Hlook).
  exists d. split; [|apply sameEntries_refl].
  rewrite (loadStoredData_result w' home Hhome Hdir), Hlook.
  now rewrite (Unmarshal_MarshalIndent d file Hd Hfile).
Qed.

End Proofs.

(* ===================================================================== *)
(** * The properties on the sample worlds                                *)
(* ===================================================================== *)

Example plainRun_main :
  fst (main plainRun) =
  {| exit := Exit 0;
     picks := ["alice"; "svc1"; "foo"; ""]%string;
     storedData := Some plainStored;
     command := Some "alice@svc1@foo"%string |}.
Proof. vm_compute. reflexivity. Qed.

(** ** C1 *)

(** C1, the claim as stated fails: on the line [Host foo *.example.com]
    the token [foo] holds no wildcard, yet the line contributes no host,
    because the wildcard test is made on the whole line. *)
Lemma wildcard_drops_whole_line :
  getValues (configHosts
    (fst (scanLine emptyConfig "Host foo *.example.com" plainRun))) = [] /\
  List.filter (fun name => negb (strings.Contains name "*"))
    (strings.Fields "foo *.example.com") = ["foo"%string].
Proof. split; vm_compute; reflexivity. Qed.

(** C1, the amended claim on the sample world. *)
Lemma host_lines_witness :
  strings.HasPrefix (strings.TrimSpace "  Host foo bar ") "Host " = true /\
  getValues (configHosts (fst (scanLine emptyConfig "  Host foo bar " plainRun)))
  = ["foo"; "bar"]%string /\
  exists config,
    fst (loadSSHConfig plainRun) = Ok config /\
    getValues (configHosts config) = ["foo"; "bar"]%string.
Proof.
  destruct (host_lines plainRun) as [Hline Hfile].
  split; [reflexivity|]. split.
  - exact (proj1 (Hline emptyConfig "  Host foo bar "%string eq_refl)).
  - destruct (Hfile "/home/alice"%string eq_refl eq_refl)
      as (config & Hload & _ & _ & _ & Hhosts).
    exists config. split; [exact Hload | exact (Hhosts eq_refl)].
Defined.

(** ** C2 *)

(** C2, the claim as stated fails: when the lookup of the current user
    fails and the history holds no key, the key candidate list is empty,
    so no entry of the current user appears in it. *)
Lemma no_current_user_no_key :
  currentUser noUserRun = None /\
  exists config,
    fst (loadSSHConfig noUserRun) = Ok config /\ configKeys config = [].
Proof. split; [reflexivity|]. eexists. split; vm_compute; reflexivity. Qed.

(** C2, the amended claim on the sample world: [alice] picks herself and
    no key is written back. *)
Lemma current_user_key_witness :
  homeDir plainRun = Some "/home/alice"%string /\
  currentUser plainRun = Some "alice"%string /\
  picks (fst (main plainRun)) = ["alice"; "svc1"; "foo"; ""]%string /\
  storedData (fst (main plainRun)) = Some plainStored /\
  Keys plainStored = Keys (fst (fst (loadStoredData plainRun))).
Proof.
  assert (Hd : storedData (fst (main plainRun)) = Some plainStored).
  { vm_compute. reflexivity. }
  assert (Hp : picks (fst (main plainRun)) = ["alice"; "svc1"; "foo"; ""]%string).
  { vm_compute. reflexivity. }
  split; [reflexivity|]. split; [reflexivity|].
  split; [exact Hp|]. split; [exact Hd|].
  exact (proj2 (current_user_key plainRun "/home/alice" "alice" eq_refl eq_refl)
           "svc1"%string "foo"%string ""%string plainStored Hp Hd).
Defined.

(** ** C3 *)

(** C3 on a list that holds [deploy]: selecting [deploy] again refreshes
    the entry, selecting [root] appends one. *)
Lemma addOrUpdateEntry_unique_witness :
  NoDup (getValues [deploy]) /\
  fst (addOrUpdateEntry [deploy] "deploy" plainRun)
  = [{| Value := "deploy"; LastUsed := sampleClock 0; CreatedAt := evening |}] /\
  NoDup (getValues (fst (addOrUpdateEntry [deploy] "deploy" plainRun))) /\
  fst (addOrUpdateEntry [deploy] "root" plainRun)
  = [deploy; {| Value := "root"; LastUsed := sampleClock 0;
                CreatedAt := sampleClock 0 |}].
Proof.
  assert (Hnd : NoDup (getValues [deploy])).
  { apply NoDup_singleton. }
  destruct (addOrUpdateEntry_unique [deploy] "deploy" plainRun)
    as (Hunique & _ & Hfound & _ & _).
  destruct (addOrUpdateEntry_unique [deploy] "root" plainRun)
    as (_ & _ & _ & Hnew & _).
  split; [exact Hnd|]. split; [|split].
  - destruct Hfound as (before & entry & after & Hsplit & Hv & Hnot & ->).
    { simpl. left. }
    destruct before as [|b before].
    + injection Hsplit as <- <-. reflexivity.
    + injection Hsplit as <- Hrest. now destruct before.
  - exact (Hunique Hnd).
  - apply Hnew. simpl. rewrite list_elem_of_singleton. discriminate.
Defined.

(** ** C4 *)

(** C4, the claim as stated fails: a value that is not valid UTF-8 is
    saved with U+FFFD in place of each ill-formed byte; the save succeeds,
    the load succeeds, and the key that comes back has another value. *)
Lemma invalid_utf8_not_restored :
  saveStoredData (sampleData latin1) plainRun
  = (None, snd (saveStoredData (sampleData latin1) plainRun)) /\
  fst (loadStoredData (snd (saveStoredData (sampleData latin1) plainRun)))
  = (sampleData utf8.replacement, None) /\
  ~ sameEntries (sampleData latin1) (sampleData utf8.replacement).
Proof.
  split; [vm_compute; reflexivity|]. split; [vm_compute; reflexivity|].
  intros (Hkeys & _). simpl in Hkeys.
  apply Permutation_singleton_l in Hkeys. discriminate Hkeys.
Qed.

(** C4, the amended claim on the sample world. *)
Lemma save_then_load_witness :
  Forall portable (allEntries (sampleData "deploy")) /\
  saveStoredData (sampleData "deploy") plainRun
  = (None, snd (saveStoredData (sampleData "deploy") plainRun)) /\
  exists d',
    fst (loadStoredData (snd (saveStoredData (sampleData "deploy") plainRun)))
    = (d', None) /\
    sameEntries (sampleData "deploy") d'.
Proof.
  assert (Hportable : Forall portable (allEntries (sampleData "deploy"))).
  { repeat constructor; exists eveningText; split; reflexivity. }
  assert (Hsave : saveStoredData (sampleData "deploy") plainRun
                  = (None, snd (saveStoredData (sampleData "deploy") plainRun))).
  { vm_compute. reflexivity. }
  split; [exact Hportable|]. split; [exact Hsave|].
  exact (save_then_load (sampleData "deploy") plainRun _ Hportable Hsave).
Defined.

(** ** C5 *)

(** C5, the claim as stated fails: the line [Y ] with its trailing
    space confirms, and so does the line [y no], whose trimmed lower case
    is not [y]. *)
Lemma confirmation_reads_one_word :
  fst (promptConfirmation "alice@svc1@foo"
         (asked ("Y " +:+ String LF EmptyString))) = true /\
  fst (promptConfirmation "alice@svc1@foo"
         (asked ("y no" +:+ String LF EmptyString))) = true /\
  strings.ToLower (strings.TrimSpace ("y no" +:+ String LF EmptyString))
  <> "y"%string.
Proof.
  split; [vm_compute; reflexivity|]. split; [vm_compute; reflexivity|].
  vm_compute. discriminate.
Qed.

(** C5, the amended claim on sample lines. *)
Lemma promptConfirmation_first_word_witness :
  fst (fmt.Scanln (stdin (asked ("  Y" +:+ String LF EmptyString)))) = "Y"%string /\
  fst (promptConfirmation "alice@svc1@foo"
         (asked ("  Y" +:+ String LF EmptyString))) = true /\
  fst (promptConfirmation "alice@svc1@foo" (asked "yes")) = false.
Proof.
  split; [reflexivity|]. split.
  - apply (proj1 (promptConfirmation_first_word "alice@svc1@foo"
                    (asked ("  Y" +:+ String LF EmptyString)))).
    right. reflexivity.
  - apply (proj2 (proj2 (proj2 (promptConfirmation_first_word "alice@svc1@foo"
                                  (asked "yes"))))).
    right. right. left. reflexivity.
Defined.

(** ** C6 *)

(** C6 on the sample runs: without and with a jump host. *)
Lemma sshCmd_verbatim_witness :
  command (fst (main jumpRun)) = Some "alice@svc1@foo@jmp1"%string /\
  exists key account host jump,
    picks (fst (main jumpRun)) = [key; account; host; jump] /\
    "alice@svc1@foo@jmp1"%string = sshCmd key account host jump.
Proof.
  assert (Hshown : command (fst (main jumpRun)) = Some "alice@svc1@foo@jmp1"%string).
  { vm_compute. reflexivity. }
  split; [exact Hshown|].
  exact (proj2 (proj2 (sshCmd_verbatim "" "" "")) jumpRun _ Hshown).
Defined.

Example sshCmd_examples :
  sshCmd "alice" "svc1" "foo" "" = "alice@svc1@foo"%string /\
  sshCmd "alice" "svc1" "foo" "jmp1" = "alice@svc1@foo@jmp1"%string.
Proof. split; reflexivity. Qed.

(** ** C7 *)

(** C7 on the sample world: the typed query [alice] is the key. *)
Lemma runFzf_typed_query_witness :
  oneLine "alice" = true /\
  fzf noUserRun [] "key" = Exited 1 ("alice" +:+ String LF EmptyString) /\
  fst (runFzf [] "key" noUserRun) = ("alice"%string, None).
Proof.
  split; [reflexivity|]. split; [reflexivity|].
  apply (proj1 (runFzf_typed_query [] "key" noUserRun) "alice"%string EmptyString).
  - reflexivity.
  - discriminate.
  - right. reflexivity.
Defined.

(** ** C8 *)

(** C8, the claim as stated fails: the history document has a key and,
    for its accounts, a number; the load reports the type error and
    returns a [StoredData] that holds the key. *)
Lemma parse_error_keeps_entries :
  fst (loadStoredData brokenRun)
  = ({| Keys := [deploy]; Accounts := []; Hosts := []; Jumps := [] |},
     Some (Errorf "could not parse config file"
             (UnmarshalTypeError "number" "accounts"))) /\
  {| Keys := [deploy]; Accounts := []; Hosts := []; Jumps := [] |}
  <> @emptyData rfc3339.civil.
Proof. split; [vm_compute; reflexivity | discriminate]. Qed.

(** C8, the amended claim on the sample worlds: no history file, and a
    history file that the decoder rejects, after which the run still
    reaches [saveStoredData] with the loaded key. *)
Lemma loadStoredData_soft_failure_witness :
  homeDir brokenRun = Some "/home/alice"%string /\
  fst (loadStoredData plainRun) = (emptyData, None) /\
  snd (fst (loadStoredData brokenRun))
  = Some (Errorf "could not parse config file"
            (UnmarshalTypeError "number" "accounts")) /\
  exists d,
    storedData (fst (main brokenRun)) = Some d /\
    "deploy"%string ∈ getValues (Keys d).
Proof.
  assert (Hdir : forall w : World rfc3339.civil,
             blocked w = ∅ -> configDir "/home/alice" ∉ blocked w).
  { intros w ->. apply not_elem_of_empty. }
  destruct (loadStoredData_soft_failure plainRun "/home/alice" eq_refl
              (Hdir plainRun eq_refl)) as (Habsent & _).
  destruct (loadStoredData_soft_failure brokenRun "/home/alice" eq_refl
              (Hdir brokenRun eq_refl)) as (_ & _ & _ & Hparse & Hgoes).
  split; [reflexivity|]. split; [exact (Habsent eq_refl)|]. split.
  - rewrite (Hparse brokenHistory
               {| Keys := [deploy]; Accounts := []; Hosts := []; Jumps := [] |}
               (UnmarshalTypeError "number" "accounts") eq_refl eq_refl).
    reflexivity.
  - destruct (Hgoes
                {| configKeys := [{| Value := "alice"; LastUsed := sampleClock 0;
                                     CreatedAt := sampleClock 0 |}];
                   configAccounts := [{| Value := "svc1"; LastUsed := sampleClock 3;
                                         CreatedAt := sampleClock 3 |}];
                   configHosts := [{| Value := "foo"; LastUsed := sampleClock 1;
                                      CreatedAt := sampleClock 1 |};
                                   {| Value := "bar"; LastUsed := sampleClock 2;
                                      CreatedAt := sampleClock 2 |}];
                   configJumps := [{| Value := "jmp1"; LastUsed := sampleClock 4;
                                      CreatedAt := sampleClock 4 |}] |}
                {| Value := "alice"; LastUsed := sampleClock 0;
                   CreatedAt := sampleClock 0 |}
                [] "alice"%string "svc1"%string "foo"%string "jmp1"%string
                eq_refl eq_refl eq_refl eq_refl eq_refl eq_refl eq_refl)
      as (d & Hd & Hkept).
    exists d. split; [exact Hd|].
    apply (Hkept CKeys). rewrite (Hparse brokenHistory
               {| Keys := [deploy]; Accounts := []; Hosts := []; Jumps := [] |}
               (UnmarshalTypeError "number" "accounts") eq_refl eq_refl).
    simpl. left.
Defined.

(** ** C9 *)

(** C9 on the sample world: the jump host is left empty and the jumps
    stay as they were loaded. *)
Lemma empty_jump_not_recorded_witness :
  storedData (fst (main plainRun)) = Some plainStored /\
  picks (fst (main plainRun)) = ["alice"; "svc1"; "foo"; ""]%string /\
  Jumps plainStored = Jumps (fst (fst (loadStoredData plainRun))).
Proof.
  assert (Hd : storedData (fst (main plainRun)) = Some plainStored).
  { vm_compute. reflexivity. }
  assert (Hp : picks (fst (main plainRun)) = ["alice"; "svc1"; "foo"; ""]%string).
  { vm_compute. reflexivity. }
  split; [exact Hd|]. split; [exact Hp|].
  exact (proj1 (empty_jump_not_recorded plainRun plainStored Hd)
           "alice"%string "svc1"%string "foo"%string Hp).
Defined.

(** ** C10 *)

(** C10 fails on the code: when the lookup of the current user fails
    and the history holds no key, the key candidate list is empty; the
    picker still returns the typed query, and [main] then indexes the
    first key candidate and panics. *)
Theorem main_panics_without_keys :
  currentUser noUserRun = None /\
  fst (runFzf [] "key" noUserRun) = ("alice"%string, None) /\
  fst (main noUserRun) =
  {| exit := Panic "index out of range [0] with length 0";
     picks := ["alice"%string];
     storedData := None;
     command := None |}.
Proof.
  split; [reflexivity|]. split; vm_compute; reflexivity.
Qed.

(* ===================================================================== *)
(** * Further properties of the program                                  *)
(* ===================================================================== *)

(** ** The history of the earlier version: [addUniqueToSlice] *)

Lemma hasItem_elem_of (slice : list string) (item : string) :
  hasItem slice item = true <-> item ∈ slice.
Proof.
  induction slice as [|existing rest IH]; simpl.
  - split; [discriminate|]. intros Hin. now apply not_elem_of_nil in Hin.
  - rewrite elem_of_cons.
    destruct (String.eqb_spec existing item) as [->|Hne].
    + split; auto.
    + rewrite IH. split; [auto|]. intros [Heq|Hin]; [congruence|assumption].
Qed.

Lemma hasItem_false (slice : list string) (item : string) :
  hasItem slice item = false <-> item ∉ slice.
Proof.
  rewrite <- hasItem_elem_of. now destruct (hasItem slice item).
Qed.

(** X1. [addUniqueToSlice] returns the slice itself when the item is in
    it, and the slice with the item appended otherwise; the result
    holds the item, and adding the item once more changes nothing. *)
Theorem addUniqueToSlice_once (slice : list string) (item : string) :
  addUniqueToSlice slice item
    = (if decide (item ∈ slice) then slice else slice ++ [item]) /\
  item ∈ addUniqueToSlice slice item /\
  addUniqueToSlice (addUniqueToSlice slice item) item
    = addUniqueToSlice slice item.
Proof.
  assert (Hfirst : addUniqueToSlice slice item
                   = if decide (item ∈ slice) then slice else slice ++ [item]).
  { unfold addUniqueToSlice.
    destruct (decide (item ∈ slice)) as [Hin|Hout].
    - apply hasItem_elem_of in Hin. now rewrite Hin.
    - apply hasItem_false in Hout. now rewrite Hout. }
  assert (Hin : item ∈ addUniqueToSlice slice item).
  { rewrite Hfirst. destruct (decide (item ∈ slice)); [assumption|].
    apply elem_of_app. right. now apply list_elem_of_singleton. }
  repeat split; [exact Hfirst | exact Hin |].
  unfold addUniqueToSlice at 1.
  apply hasItem_elem_of in Hin. now rewrite Hin.
Qed.

(** X2. A slice without duplicates stays without duplicates under any
    sequence of [addUniqueToSlice], and no item of it is lost or
    moved: the slice is a prefix of the result. *)
Theorem addUniqueToSlice_NoDup (items slice : list string) :
  NoDup slice ->
  NoDup (fold_left addUniqueToSlice items slice) /\
  slice `prefix_of` fold_left addUniqueToSlice items slice.
Proof.
  revert slice; induction items as [|item items IH]; intros slice Hnd; simpl.
  - split; [assumption | reflexivity].
  - assert (Hstep : NoDup (addUniqueToSlice slice item) /\
                    slice `prefix_of` addUniqueToSlice slice item).
    { unfold addUniqueToSlice.
      destruct (hasItem slice item) eqn:Hi; [split; [assumption|reflexivity]|].
      apply hasItem_false in Hi. split; [|now apply prefix_app_r].
      apply NoDup_app. repeat split; [assumption | | apply NoDup_singleton].
      intros x Hx Hx'. apply list_elem_of_singleton in Hx'. now subst. }
    destruct Hstep as [Hnd' Hpre]. destruct (IH _ Hnd') as [Hnd'' Hpre'].
    split; [assumption|]. now transitivity (addUniqueToSlice slice item).
Qed.

Section More.

Context {Time : Type} `{TimeJSON Time}.

(** ** The two versions of the history *)

Lemma indexOfValue_hasItem (entries : list (StoredEntry Time)) (value : string) :
  hasItem (getValues entries) value
  = match indexOfValue entries value with Some _ => true | None => false end.
Proof.
  induction entries as [|e l IH]; simpl; [reflexivity|].
  destruct (String.eqb (Value e) value); [reflexivity|].
  rewrite IH. now destruct (indexOfValue l value).
Qed.

Lemma addOrUpdateEntry_slice (entries : list (StoredEntry Time))
    (value : string) (w : World Time) :
  getValues (fst (addOrUpdateEntry entries value w))
  = addUniqueToSlice (getValues entries) value.
Proof.
  rewrite addOrUpdateEntry_result. unfold addUniqueToSlice.
  rewrite indexOfValue_hasItem.
  destruct (indexOfValue entries value) as [i|].
  - apply alter_touch.
  - now rewrite getValues_app.
Qed.

(** X3. The values of the list that [addOrUpdateEntry] returns are what
    [addUniqueToSlice] of the earlier version returns on the values of
    the list: the later version adds the time stamps and changes
    neither which values are stored nor their order, whatever the
    clock reads. *)
Theorem addOrUpdateEntry_refines (entries : list (StoredEntry Time))
    (value : string) (w w' : World Time) :
  getValues (fst (addOrUpdateEntry entries value w))
  = addUniqueToSlice (getValues entries) value /\
  getValues (fst (addOrUpdateEntry entries value w'))
  = getValues (fst (addOrUpdateEntry entries value w)).
Proof.
  split; [apply addOrUpdateEntry_slice|].
  now rewrite !addOrUpdateEntry_slice.
Qed.

(** ** Writing the history: [saveStoredData] *)

Lemma saveStoredData_run (d : StoredData Time) (w : World Time) :
  saveStoredData d w =
  match homeDir w with
  | None => (Some (Errorf "could not get home directory" HomeUndefined), w)
  | Some home =>
      if decide (configDir home ∈ blocked w)
      then (Some (Errorf "could not create config directory"
                    (PathError "mkdir" (configDir home))), w)
      else match json_MarshalIndent d with
           | Err err => (Some (Errorf "could not marshal config data" err), w)
           | Ok file =>
               match files w !! historyPath home with
               | Some Locked =>
                   (Some (Errorf "could not write config file"
                            (PathError "open" (historyPath home))), w)
               | _ => (None, withFile (historyPath home) file w)
               end
           end
  end.
Proof.
  unfold saveStoredData, getConfigPath, bind, os_UserHomeDir, os_MkdirAll, gets.
  destruct (homeDir w) as [home|]; [|reflexivity].
  fold (configDir home). cbv beta iota.
  destruct (decide (configDir home ∈ blocked w)); [reflexivity|].
  fold (historyPath home). cbv beta iota.
  destruct (json_MarshalIndent d) as [file|err]; [|reflexivity].
  unfold os_WriteFile, withFile, ret.
  destruct (files w !! historyPath home) as [[|old]|] eqn:E;
    cbv beta iota; rewrite ?E; reflexivity.
Qed.




(** [saveStoredData] changes no file but the history file, and nothing
    else of the world. *)
Lemma saveStoredData_frame (d : StoredData Time) (w : World Time) :
  sameEnvironment w (snd (saveStoredData d w)) /\
  ticks (snd (saveStoredData d w)) = ticks w /\
  forall path,
    (forall home, homeDir w = Some home -> path <> historyPath home) ->
    files (snd (saveStoredData d w)) !! path = files w !! path.
Proof.
  rewrite saveStoredData_run.
  destruct (homeDir w) as [home|] eqn:Hhome; [|now repeat split].
  destruct (decide (configDir home ∈ blocked w)); [now repeat split|].
  destruct (json_MarshalIndent d) as [file|err]; [|now repeat split].
  assert (Hw : sameEnvironment w (withFile (historyPath home) file w) /\
               ticks (withFile (historyPath home) file w) = ticks w /\
               forall path,
                 (forall home', Some home = Some home' -> path <> historyPath home') ->
                 files (withFile (historyPath home) file w) !! path
                 = files w !! path).
  { repeat split; try assumption. intros path Hpath. cbn [withFile files].
    apply lookup_insert_ne. intros Heq. now apply (Hpath home eq_refl). }
  destruct (files w !! historyPath home) as [[|old]|]; [now repeat split| |];
    exact Hw.
Qed.

(** ** The course of [main] *)

Ltac stopped :=
  do 2 eexists; (split; [reflexivity|]);
  left; split; [reflexivity | eexists; reflexivity].

Ltac saved :=
  match goal with
  | |- context [saveStoredData ?d ?w1] =>
      destruct (saveStoredData d w1) as [? ?w5] eqn:?Es
  end;
  rewrite promptConfirmation_result; cbv beta iota;
  match goal with
  | |- context [String.eqb ?s "y"] => destruct (String.eqb s "y")
  end;
  [ unfold executeSSH, gets; cbv beta iota;
    match goal with
    | |- context [ssh ?w5 ?c] => destruct (ssh w5 c)
    end |];
  do 2 eexists; (split; [reflexivity|]);
  right; do 2 eexists; (split; [reflexivity|]);
  match goal with
  | Es : saveStoredData _ _ = _ |- _ => rewrite Es
  end; reflexivity.

Lemma main_world_run (w : World Time) :
  exists r w',
    main w = (r, w') /\
    ((storedData r = None /\ exists k, w' = advance k w) \/
     (exists d k,
        storedData r = Some d /\ w' = snd (saveStoredData d (advance k w)))).
Proof.
  destruct (ticking_loadSSHConfig w) as [n0 Hn0].
  unfold main, bind. unfold gets at 1.
  destruct (showVersion w).
  { do 2 eexists. split; [reflexivity|]. left. split; [reflexivity|].
    exists 0%nat. now rewrite advance_0. }
  destruct (loadSSHConfig w) as [[config|err] w0]; simpl in Hn0; subst w0;
    [|stopped].
  rewrite (reading_loadStoredData w n0).
  destruct (fst (loadStoredData w)) as [d0 e0].
  rewrite (reading_runFzf _ _ w n0).
  destruct (fst (runFzf _ "key" w)) as [key [e|]]; [stopped|].
  destruct (configKeys config) as [|first rest]; [stopped|].
  destruct (key =? Value first)%string; cbn [negb]; cbv beta;
    [|rewrite addOrUpdateEntry_run]; unfold ret at 1;
    cbv beta iota; rewrite ?advance_advance;
    rewrite reading_runFzf;
    (destruct (fst (runFzf _ "account" w)) as [account [e|]]; [stopped|]);
    rewrite addOrUpdateEntry_run, ?advance_advance; cbv beta iota;
    rewrite reading_runFzf;
    (destruct (fst (runFzf _ "host" w)) as [host [e|]]; [stopped|]);
    rewrite addOrUpdateEntry_run, ?advance_advance; cbv beta iota;
    rewrite reading_runFzf;
    (destruct (fst (runFzf _ "jump" w)) as [jump [e|]]; [stopped|]);
    (destruct (jump =? "")%string; cbn [negb]; cbv beta;
     [|rewrite (addOrUpdateEntry_run (Jumps _))]; unfold ret at 1;
     cbv beta iota; rewrite ?advance_advance; saved).
Qed.

(** Where [main] leaves the world: it has read the clock, and written
    with [saveStoredData] when it got that far. *)
Lemma main_world (w : World Time) :
  (storedData (fst (main w)) = None /\ exists k, snd (main w) = advance k w) \/
  (exists d k,
     storedData (fst (main w)) = Some d /\
     snd (main w) = snd (saveStoredData d (advance k w))).
Proof.
  destruct (main_world_run w) as (r & w' & -> & Hw). exact Hw.
Qed.


(** X6. With the version flag, and without a home directory, [main]
    stops before any selection: with status 0 in the first case and 1
    in the second, and the world is as it was. *)
Theorem main_stops_early (w : World Time) :
  showVersion w = true \/ homeDir w = None ->
  main w =
  ({| exit := Exit (if showVersion w then 0 else 1); picks := [];
      storedData := None; command := None |}, w).
Proof.
  intros Hw. unfold main, bind. unfold gets at 1.
  destruct (showVersion w); [reflexivity|].
  destruct Hw as [Hv|Hhome]; [discriminate|].
  unfold loadSSHConfig, bind, os_UserHomeDir, gets. now rewrite Hhome.
Qed.

Ltac all_selected Hex :=
  exfalso; rewrite !Exists_cons, Exists_nil in Hex; cbn [snd] in Hex;
  intuition congruence.

(** X7. When one of the four selections fails, [main] stops with status
    1 at that selection: the later prompts are not shown, the history is
    not handed to [saveStoredData], no command is built and no file is
    written, whatever was selected before. (With no key candidate, this
    is the case in which the selection of the key is the one that
    fails.) *)
Theorem main_stops_at_failed_selection (w : World Time)
    (config : SSHConfig Time) :
  showVersion w = false ->
  fst (loadSSHConfig w) = Ok config ->
  (configKeys config = [] -> chosen (selections w config) = []) ->
  Exists (fun answer => snd answer <> None) (selections w config) ->
  fst (main w) =
    {| exit := Exit 1; picks := chosen (selections w config);
       storedData := None; command := None |} /\
  files (snd (main w)) = files w.
Proof.
  intros Hv Hc Hk Hex.
  assert (Hrun : fst (main w) =
                 {| exit := Exit 1; picks := chosen (selections w config);
                    storedData := None; command := None |}).
  { destruct (ticking_loadSSHConfig w) as [n0 Hn0].
    unfold main, bind. unfold gets at 1. rewrite Hv.
    destruct (loadSSHConfig w) as [cfg w0]. simpl in Hc, Hn0. subst cfg w0.
    rewrite (reading_loadStoredData w n0).
    destruct (fst (loadStoredData w)) as [d0 e0].
    rewrite (reading_runFzf _ _ w n0). unfold selections in *.
    destruct (fst (runFzf _ "key" w)) as [key [e|]]; [reflexivity|].
    destruct (configKeys config) as [|first rest];
      [specialize (Hk eq_refl); discriminate Hk|]. clear Hk.
    destruct (key =? Value first)%string; cbn [negb]; cbv beta;
      [|rewrite addOrUpdateEntry_run]; unfold ret at 1;
      cbv beta iota; rewrite ?advance_advance;
      rewrite reading_runFzf;
      (destruct (fst (runFzf _ "account" w)) as [account [e|]]; [reflexivity|]);
      rewrite addOrUpdateEntry_run, ?advance_advance; cbv beta iota;
      rewrite reading_runFzf;
      (destruct (fst (runFzf _ "host" w)) as [host [e|]]; [reflexivity|]);
      rewrite addOrUpdateEntry_run, ?advance_advance; cbv beta iota;
      rewrite reading_runFzf;
      (destruct (fst (runFzf _ "jump" w)) as [jump [e|]]; [reflexivity|]);
      all_selected Hex. }
  split; [exact Hrun|].
  destruct (main_world w) as [[_ [k ->]] | (d & k & Hd & _)]; [reflexivity|].
  rewrite Hrun in Hd. discriminate Hd.
Qed.

(** The selections after the key, up to the jump host. *)
Ltac select_all Hacc Hhost Hjump :=
  rewrite ?advance_advance;
  rewrite reading_runFzf, Hacc; cbv beta iota;
  rewrite addOrUpdateEntry_run, ?advance_advance; cbv beta iota;
  rewrite reading_runFzf, Hhost; cbv beta iota;
  rewrite addOrUpdateEntry_run, ?advance_advance; cbv beta iota;
  rewrite reading_runFzf, Hjump; cbv beta iota;
  cbn [setCategory Keys Accounts Hosts Jumps].

(** The end of [main], from [saveStoredData] on, with the exit status. *)
Ltac session_end :=
  match goal with
  | |- context [saveStoredData ?d ?w1] =>
      let Hin := fresh "Hin" in
      let Hssh := fresh "Hssh" in
      destruct (saveStoredData_frame d w1)
        as ((_ & _ & _ & _ & _ & _ & _ & Hin & Hssh) & _);
      destruct (saveStoredData d w1) as [? ?w5];
      cbn [snd advance stdin ssh] in Hin, Hssh;
      unfold sessionExit; rewrite !promptConfirmation_result; cbv beta iota;
      cbn [fst]; rewrite Hin;
      match goal with
      | |- context [String.eqb ?s "y"] => destruct (String.eqb s "y")
      end;
      [ unfold executeSSH, gets; cbv beta iota; rewrite Hssh;
        match goal with
        | |- context [ssh ?w ?c] => destruct (ssh w c)
        end |]
  end;
  do 4 (first [eexists; [exact 0%nat|] | eexists]); reflexivity.

(** The result of a run in which the configuration loads, the key list
    is not empty and the four selections succeed. *)
Lemma main_outcome (w : World Time) (config : SSHConfig Time)
    (first : StoredEntry Time) (rest : list (StoredEntry Time))
    (key account host jump : string) :
  showVersion w = false ->
  fst (loadSSHConfig w) = Ok config ->
  configKeys config = first :: rest ->
  fst (runFzf (getValues (configKeys config)) "key" w) = (key, None) ->
  fst (runFzf (getValues (configAccounts config)) "account" w) = (account, None) ->
  fst (runFzf (getValues (configHosts config)) "host" w) = (host, None) ->
  fst (runFzf (getValues (configJumps config)) "jump" w) = (jump, None) ->
  let loaded := fst (fst (loadStoredData w)) in
  exists (n1 n2 n3 n4 : nat),
    fst (main w) =
    {| exit := sessionExit w (sshCmd key account host jump);
       picks := [key; account; host; jump];
       storedData :=
         Some {| Keys := if String.eqb key (Value first) then Keys loaded
                         else fst (addOrUpdateEntry (Keys loaded) key (advance n1 w));
                 Accounts := fst (addOrUpdateEntry (Accounts loaded) account (advance n2 w));
                 Hosts := fst (addOrUpdateEntry (Hosts loaded) host (advance n3 w));
                 Jumps := if String.eqb jump "" then Jumps loaded
                          else fst (addOrUpdateEntry (Jumps loaded) jump (advance n4 w)) |};
       command := Some (sshCmd key account host jump) |}.
Proof.
  intros Hv Hc Hk Hkey Hacc Hhost Hjump loaded. subst loaded.
  destruct (ticking_loadSSHConfig w) as [n0 Hn0].
  unfold main, bind. unfold gets at 1. rewrite Hv.
  destruct (loadSSHConfig w) as [cfg w0]. simpl in Hc, Hn0. subst cfg w0.
  rewrite (reading_loadStoredData w n0).
  destruct (fst (loadStoredData w)) as [d0 e0]. cbn [fst].
  rewrite (reading_runFzf _ _ w n0), Hkey, Hk.
  destruct (key =? Value first)%string eqn:Ek; cbn [negb]; cbv beta.
  - unfold ret; cbv beta iota. select_all Hacc Hhost Hjump.
    destruct (jump =? "")%string eqn:Ej; cbn [negb]; cbv beta.
    + session_end.
    + rewrite (addOrUpdateEntry_run (Jumps d0)); cbv beta iota.
      session_end.
  - rewrite addOrUpdateEntry_run. unfold ret; cbv beta iota.
    select_all Hacc Hhost Hjump.
    destruct (jump =? "")%string eqn:Ej; cbn [negb]; cbv beta.
    + session_end.
    + rewrite (addOrUpdateEntry_run (Jumps d0)); cbv beta iota.
      session_end.
Qed.

(** A run that reached [saveStoredData], in full. *)
Lemma main_session (w : World Time) :
  reached (fst (main w)) ->
  exists config first rest key account host jump (n1 n2 n3 n4 : nat),
    fst (loadSSHConfig w) = Ok config /\
    configKeys config = first :: rest /\
    let loaded := fst (fst (loadStoredData w)) in
    fst (main w) =
    {| exit := sessionExit w (sshCmd key account host jump);
       picks := [key; account; host; jump];
       storedData :=
         Some {| Keys := if String.eqb key (Value first) then Keys loaded
                         else fst (addOrUpdateEntry (Keys loaded) key (advance n1 w));
                 Accounts := fst (addOrUpdateEntry (Accounts loaded) account (advance n2 w));
                 Hosts := fst (addOrUpdateEntry (Hosts loaded) host (advance n3 w));
                 Jumps := if String.eqb jump "" then Jumps loaded
                          else fst (addOrUpdateEntry (Jumps loaded) jump (advance n4 w)) |};
       command := Some (sshCmd key account host jump) |}.
Proof.
  intros Hr.
  destruct (main_saved w Hr)
    as (Hv & config & first & rest & key & account & host & jump
        & Hc & Hk & Hkey & Hacc & Hhost & Hjump).
  destruct (main_outcome w config first rest key account host jump
              Hv Hc Hk Hkey Hacc Hhost Hjump)
    as (n1 & n2 & n3 & n4 & Hmain).
  now exists config, first, rest, key, account, host, jump, n1, n2, n3, n4.
Qed.

(** X8. The exit status of a run that built a command is decided by the
    confirmation and by the SSH client alone: it is 1 exactly when the
    user confirmed and the client failed, and 0 otherwise. An error of
    [saveStoredData] does not show in it. *)
Theorem main_exit_status (w : World Time) (cmd : string) :
  command (fst (main w)) = Some cmd ->
  exit (fst (main w)) = sessionExit w cmd /\
  (exit (fst (main w)) = Exit 1 <->
   fst (promptConfirmation cmd w) = true /\ ssh w cmd <> None) /\
  (exit (fst (main w)) <> Exit 1 -> exit (fst (main w)) = Exit 0).
Proof.
  intros Hcmd.
  assert (Hr : reached (fst (main w))) by (right; congruence).
  destruct (main_session w Hr)
    as (config & first & rest & key & account & host & jump
        & n1 & n2 & n3 & n4 & _ & _ & Hmain).
  cbv zeta in Hmain. rewrite Hmain in Hcmd |- *. cbn [command exit] in *.
  injection Hcmd as <-. split; [reflexivity|].
  unfold sessionExit.
  destruct (fst (promptConfirmation _ w));
    [destruct (ssh w _) as [failure|]|]; intuition congruence.
Qed.

(** X9. The values that a run hands to [saveStoredData] are those the
    earlier version of [main] stored: the loaded accounts and hosts
    with the selected account and host added by [addUniqueToSlice],
    even when the selection is the empty string; the loaded jump hosts
    with the selected one, unless it is the empty string; the loaded
    keys with the selected one, unless it is the value of the first key
    candidate. *)
Theorem main_records_selections (w : World Time) (d : StoredData Time)
    (key account host jump : string) :
  storedData (fst (main w)) = Some d ->
  picks (fst (main w)) = [key; account; host; jump] ->
  let loaded := fst (fst (loadStoredData w)) in
  getValues (Accounts d) = addUniqueToSlice (getValues (Accounts loaded)) account /\
  getValues (Hosts d) = addUniqueToSlice (getValues (Hosts loaded)) host /\
  getValues (Jumps d)
  = (if String.eqb jump "" then getValues (Jumps loaded)
     else addUniqueToSlice (getValues (Jumps loaded)) jump) /\
  exists config first rest,
    fst (loadSSHConfig w) = Ok config /\
    configKeys config = first :: rest /\
    getValues (Keys d)
    = if String.eqb key (Value first) then getValues (Keys loaded)
      else addUniqueToSlice (getValues (Keys loaded)) key.
Proof.
  intros Hd Hp loaded. subst loaded.
  assert (Hr : reached (fst (main w))) by (left; congruence).
  destruct (main_session w Hr)
    as (config & first & rest & key' & account' & host' & jump'
        & n1 & n2 & n3 & n4 & Hc & Hk & Hmain).
  cbv zeta in Hmain. rewrite Hmain in Hd, Hp. cbn [storedData picks] in Hd, Hp.
  injection Hp as -> -> -> ->. injection Hd as <-.
  cbn [Keys Accounts Hosts Jumps].
  split; [apply addOrUpdateEntry_slice|].
  split; [apply addOrUpdateEntry_slice|].
  split.
  - destruct (String.eqb jump ""); [reflexivity | apply addOrUpdateEntry_slice].
  - exists config, first, rest. split; [exact Hc|]. split; [exact Hk|].
    destruct (String.eqb key (Value first));
      [reflexivity | apply addOrUpdateEntry_slice].
Qed.

Lemma alter_touch_identity (now : Time) (i : nat)
    (entries : list (StoredEntry Time)) :
  map identity (alter (touch now) i entries) = map identity entries.
Proof.
  revert i; induction entries as [|e l IH]; intros [|i]; auto.
  change (alter (touch now) (S i) (e :: l)) with (e :: alter (touch now) i l).
  simpl. now rewrite IH.
Qed.

Lemma addOrUpdateEntry_extends (entries : list (StoredEntry Time))
    (value : string) (w : World Time) :
  map identity entries `prefix_of`
    map identity (fst (addOrUpdateEntry entries value w)) /\
  (length (fst (addOrUpdateEntry entries value w)) <= S (length entries))%nat.
Proof.
  rewrite addOrUpdateEntry_result.
  destruct (indexOfValue entries value) as [i|].
  - rewrite alter_touch_identity. split; [reflexivity|].
    rewrite (proj2 (proj2 (alter_touch _ i entries))). lia.
  - rewrite map_app, length_app. split; [now apply prefix_app_r|]. simpl. lia.
Qed.

(** X10. [main] never removes, renames or reorders an entry of the
    history it loaded: in each category the (value, createdAt) pairs of
    the loaded list are a prefix of those of the list handed to
    [saveStoredData], which is longer by one entry at most. *)
Theorem main_extends_history (w : World Time) (d : StoredData Time)
    (c : category) :
  storedData (fst (main w)) = Some d ->
  let loaded := fst (fst (loadStoredData w)) in
  map identity (getCategory c loaded) `prefix_of` map identity (getCategory c d) /\
  (length (getCategory c d) <= S (length (getCategory c loaded)))%nat.
Proof.
  intros Hd loaded. subst loaded.
  assert (Hr : reached (fst (main w))) by (left; congruence).
  destruct (main_session w Hr)
    as (config & first & rest & key & account & host & jump
        & n1 & n2 & n3 & n4 & _ & _ & Hmain).
  cbv zeta in Hmain. rewrite Hmain in Hd. cbn [storedData] in Hd.
  injection Hd as <-.
  destruct c; cbn [getCategory Keys Accounts Hosts Jumps].
  - destruct (String.eqb key (Value first));
      [split; [reflexivity | lia] | apply addOrUpdateEntry_extends].
  - apply addOrUpdateEntry_extends.
  - apply addOrUpdateEntry_extends.
  - destruct (String.eqb jump "");
      [split; [reflexivity | lia] | apply addOrUpdateEntry_extends].
Qed.

(** ** From one run to the next *)

Lemma marshalEntries_portable (l : list (StoredEntry Time)) :
  Forall portable l -> exists vs, marshalEntries l = Some vs.
Proof.
  induction l as [|e l IH]; intros Hl; [now exists []|].
  apply Forall_cons in Hl as [(_ & (s1 & Ha1 & _) & (s2 & Ha2 & _)) Hl].
  destruct (IH Hl) as [vs Hvs]. simpl.
  unfold marshalEntry, Time_MarshalJSON. rewrite Ha1, Ha2, Hvs. now eexists.
Qed.

Lemma MarshalIndent_portable (d : StoredData Time) :
  Forall portable (allEntries d) -> exists file, json_MarshalIndent d = Ok file.
Proof.
  unfold allEntries. rewrite !Forall_app. intros (Hk & Ha & Hh & Hj).
  destruct (marshalEntries_portable _ Hk) as [k Ek].
  destruct (marshalEntries_portable _ Ha) as [a Ea].
  destruct (marshalEntries_portable _ Hh) as [h Eh].
  destruct (marshalEntries_portable _ Hj) as [j Ej].
  unfold json_MarshalIndent. rewrite Ek, Ea, Eh, Ej. now eexists.
Qed.

(** X11. What a run hands to [saveStoredData] is what the next run
    loads: when the configuration directory can be created, the history
    file can be written and the entries are portable, [loadStoredData]
    in the world that [main] leaves returns that history without error,
    and the candidates of every category that [loadSSHConfig] builds
    there end with its entries. *)
Theorem main_history_next_run (w : World Time) (d : StoredData Time)
    (home : string) :
  storedData (fst (main w)) = Some d ->
  homeDir w = Some home ->
  configDir home ∉ blocked w ->
  (files w !! historyPath home) <> Some Locked ->
  Forall portable (allEntries d) ->
  fst (loadStoredData (snd (main w))) = (d, None) /\
  exists config,
    fst (loadSSHConfig (snd (main w))) = Ok config /\
    forall c, exists scanned, getCandidates c config = scanned ++ getCategory c d.
Proof.
  intros Hd Hhome Hb Hf Hp.
  destruct (main_world w) as [[Hn _] | (d' & k & Hd' & Hw)]; [congruence|].
  rewrite Hd in Hd'. injection Hd' as <-.
  destruct (MarshalIndent_portable d Hp) as [file Hfile].
  assert (Hw' : snd (main w) = withFile (historyPath home) file (advance k w)).
  { rewrite Hw, saveStoredData_run. cbn [advance homeDir blocked files].
    rewrite Hhome. destruct (decide (configDir home ∈ blocked w)); [contradiction|].
    rewrite Hfile.
    destruct (files w !! historyPath home) as [[|old]|];
      [contradiction | reflexivity | reflexivity]. }
  assert (Hload : fst (loadStoredData (snd (main w))) = (d, None)).
  { rewrite Hw'.
    rewrite (loadStoredData_result
               (withFile (historyPath home) file (advance k w)) home Hhome Hb).
    cbn [withFile files]. rewrite lookup_insert_eq.
    now rewrite (Unmarshal_MarshalIndent d file Hp Hfile). }
  split; [exact Hload|].
  assert (Hhome' : homeDir (snd (main w)) = Some home) by now rewrite Hw'.
  pose proof (loadSSHConfig_result (snd (main w)) home Hhome') as Hcfg.
  cbv zeta in Hcfg. eexists. split; [exact Hcfg|].
  unfold mergedHistory. rewrite Hload.
  intros [| | |]; eexists; reflexivity.
Qed.

(** ** The candidates, line by line *)

Lemma appendTo_values (c c' : category) (config : SSHConfig Time)
    (value : string) (w : World Time) :
  getValues (getCandidates c' (fst (appendTo c config value w)))
  = getValues (getCandidates c' config)
    ++ match c, c' with
       | CKeys, CKeys | CAccounts, CAccounts
       | CHosts, CHosts | CJumps, CJumps => [value]
       | _, _ => []
       end.
Proof.
  unfold appendTo, bind, createStoredEntry, bind, ret.
  rewrite time_Now_run. cbn [fst].
  destruct c, c'; cbn [getCandidates configKeys configAccounts configHosts configJumps];
    rewrite ?getValues_app, ?app_nil_r; reflexivity.
Qed.

Lemma forEach_appendTo_values (c' : category) (values : list string)
    (config : SSHConfig Time) (w : World Time) :
  getValues (getCandidates c' (fst (forEach (appendTo CHosts) values config w)))
  = getValues (getCandidates c' config)
    ++ match c' with CHosts => values | _ => [] end.
Proof.
  revert config w; induction values as [|v vs IH]; intros config w.
  - simpl. now destruct c'; rewrite app_nil_r.
  - simpl forEach. unfold bind. rewrite appendTo_run. rewrite IH.
    rewrite (appendTo_values CHosts c').
    destruct c'; rewrite <- ?app_assoc; reflexivity.
Qed.

Lemma scanLine_values (c : category) (config : SSHConfig Time)
    (text : string) (w : World Time) :
  getValues (getCandidates c (fst (scanLine config text w)))
  = getValues (getCandidates c config) ++ contribution c text.
Proof.
  unfold scanLine, contribution, hostsOf, accountsOf, jumpsOf.
  destruct (strings.HasPrefix _ "Host ").
  - destruct (strings.Contains _ "*"); cbn [negb].
    + now destruct c; rewrite app_nil_r.
    + rewrite forEach_appendTo_values. now destruct c.
  - destruct (strings.HasPrefix _ "User ").
    + rewrite appendTo_values. now destruct c.
    + destruct (strings.HasPrefix _ "ProxyJump ").
      * rewrite appendTo_values. now destruct c.
      * now destruct c; rewrite app_nil_r.
Qed.

Lemma forEach_scanLine_values (c : category) (lines : list string)
    (config : SSHConfig Time) (w : World Time) :
  getValues (getCandidates c (fst (forEach scanLine lines config w)))
  = getValues (getCandidates c config) ++ flat_map (contribution c) lines.
Proof.
  revert config w; induction lines as [|l ls IH]; intros config w.
  - simpl. now rewrite app_nil_r.
  - simpl forEach. unfold bind.
    pose proof (scanLine_values c config l w) as Hl.
    destruct (scanLine config l w) as [config1 w1]. cbn [fst] in Hl.
    rewrite IH, Hl. simpl. now rewrite app_assoc.
Qed.

Lemma loadSSHConfig_values (w : World Time) (home : string) (c : category) :
  homeDir w = Some home ->
  exists config,
    fst (loadSSHConfig w) = Ok config /\
    getValues (getCandidates c config)
    = synthetic c w ++ flat_map (contribution c) (configLines w home)
      ++ getValues (getCategory c (mergedHistory w)).
Proof.
  intros Hhome.
  pose proof (loadSSHConfig_result w home Hhome) as Hload.
  cbv zeta in Hload. eexists. split; [exact Hload|].
  set (seeded := match currentUser w with
                 | Some username => appendTo CKeys emptyConfig username w
                 | None => (emptyConfig, w)
                 end).
  assert (Hseed : getValues (getCandidates c (fst seeded)) = synthetic c w).
  { unfold seeded, synthetic. destruct (currentUser w) as [username|].
    - rewrite appendTo_values. now destruct c.
    - now destruct c. }
  assert (Hscan : getValues (getCandidates c (fst
              match sshConfigs w !! sshConfigPath home with
              | Some lines => forEach scanLine lines (fst seeded) (snd seeded)
              | None => seeded
              end))
            = synthetic c w ++ flat_map (contribution c) (configLines w home)).
  { unfold configLines. destruct (sshConfigs w !! sshConfigPath home) as [lines|].
    - now rewrite forEach_scanLine_values, Hseed.
    - rewrite Hseed. simpl. now rewrite app_nil_r. }
  rewrite app_assoc, <- Hscan.
  destruct c; cbn [getCandidates configKeys configAccounts configHosts configJumps
                   getCategory]; apply getValues_app.
Qed.

(** X12. The candidates of a category are, in this order: the current
    user (among the keys, when the lookup succeeds), what each line of
    the configuration file contributes, in the order of the file, and
    the entries of the history that loaded without error, in stored
    order. Nothing is removed: a value that occurs twice is offered
    twice. *)
Theorem loadSSHConfig_candidates (w : World Time) (home : string) :
  homeDir w = Some home ->
  exists config,
    fst (loadSSHConfig w) = Ok config /\
    forall c,
      getValues (getCandidates c config)
      = synthetic c w ++ flat_map (contribution c) (configLines w home)
        ++ getValues (getCategory c (mergedHistory w)).
Proof.
  intros Hhome.
  destruct (loadSSHConfig_values w home CKeys Hhome) as (config & Hc & _).
  exists config. split; [exact Hc|]. intros c.
  destruct (loadSSHConfig_values w home c Hhome) as (config' & Hc' & Hv).
  rewrite Hc in Hc'. now injection Hc' as <-.
Qed.

(** ** The picker at exit status 0 *)

(** X13. When the picker exits with status 0, [runFzf] never reports an
    error. With the query on the first line of the output and the
    selection on the second, it returns the selection without the white
    space around it; when that is empty, it falls back to the query,
    trimmed as well. An output of one line is returned trimmed. *)
Theorem runFzf_selected (items : list string) (prompt : string)
    (w : World Time) (output : string) :
  fzf w items prompt = Exited 0 output ->
  snd (fst (runFzf items prompt w)) = None /\
  (oneLine output = true ->
   fst (runFzf items prompt w) = (strings.TrimSpace output, None)) /\
  (forall query selection rest,
      oneLine query = true -> oneLine selection = true ->
      output = query +:+ String LF selection \/
      output = query +:+ String LF (selection +:+ String LF rest) ->
      fst (runFzf items prompt w)
      = (if String.eqb (strings.TrimSpace selection) ""
         then strings.TrimSpace query
         else strings.TrimSpace selection, None)).
Proof.
  intros Hf. rewrite runFzf_result, Hf. cbv zeta. cbn [Z.eqb].
  split; [|split].
  - destruct (2 <=? _)%nat; [|reflexivity]. now destruct (String.eqb _ "").
  - intros Hline. now rewrite (Split_oneLine output Hline).
  - intros query selection rest Hq Hs [-> | ->];
      rewrite (Split_first query _ Hq).
    + rewrite (Split_oneLine selection Hs). cbn [length Nat.leb nth].
      now destruct (String.eqb _ "").
    + rewrite (Split_first selection rest Hs). cbn [length Nat.leb nth].
      now destruct (String.eqb _ "").
Qed.

(** ** A configuration directory that cannot be created *)

(** X14. When the configuration directory cannot be created, the load
    of the history reports that error with an empty history, so the
    candidates come from the current user and the configuration file
    alone; [loadSSHConfig] still succeeds, every [saveStoredData]
    reports the same error, and [main] writes no file. *)
Theorem blocked_directory (w : World Time) (home : string) :
  homeDir w = Some home ->
  configDir home ∈ blocked w ->
  let err := Errorf "could not create config directory"
               (PathError "mkdir" (configDir home)) in
  fst (loadStoredData w) = (emptyData, Some err) /\
  (forall d, saveStoredData d w = (Some err, w)) /\
  (forall c, exists config,
      fst (loadSSHConfig w) = Ok config /\
      getValues (getCandidates c config)
      = synthetic c w ++ flat_map (contribution c) (configLines w home)) /\
  files (snd (main w)) = files w.
Proof.
  intros Hhome Hb err. subst err.
  assert (Hload : fst (loadStoredData w)
                  = (emptyData,
                     Some (Errorf "could not create config directory"
                             (PathError "mkdir" (configDir home))))).
  { unfold loadStoredData, getConfigPath, bind, os_UserHomeDir, os_MkdirAll, gets.
    rewrite Hhome. fold (configDir home). cbv beta iota.
    now destruct (decide (configDir home ∈ blocked w)). }
  assert (Hsave : forall d k,
             saveStoredData d (advance k w)
             = (Some (Errorf "could not create config directory"
                        (PathError "mkdir" (configDir home))), advance k w)).
  { intros d k. rewrite saveStoredData_run. cbn [advance homeDir blocked].
    rewrite Hhome. now destruct (decide (configDir home ∈ blocked w)). }
  split; [exact Hload|]. split; [|split].
  - intros d. specialize (Hsave d 0%nat). now rewrite advance_0 in Hsave.
  - intros c. destruct (loadSSHConfig_values w home c Hhome)
      as (config & Hc & Hv).
    exists config. split; [exact Hc|]. rewrite Hv.
    unfold mergedHistory. rewrite Hload.
    destruct c; cbn [getCategory emptyData Keys Accounts Hosts Jumps getValues map];
      now rewrite app_nil_r.
  - destruct (main_world w) as [[_ [k ->]] | (d & k & _ & ->)]; [reflexivity|].
    now rewrite Hsave.
Qed.

(** ** Indentation of the configuration file *)

Lemma TrimSpace_blanks (lead s : string) :
  blanks lead = true -> strings.TrimSpace (lead +:+ s) = strings.TrimSpace s.
Proof.
  induction lead as [|c t IH]; [reflexivity|].
  unfold blanks; simpl. intros Hb. apply andb_prop in Hb as [Hc Ht].
  rewrite <- (IH Ht). rewrite append_String.
  destruct (blankByte_space c Hc) as (Hascii & _ & Hsp).
  unfold strings.TrimSpace. rewrite (runes_ascii c _ Hascii).
  cbn [strings.dropSpaces]. unfold strings.space at 1. cbn [utf8.rune].
  now rewrite Hsp.
Qed.

(** X15. The indentation of a line of the configuration file does not
    count: a line preceded by spaces and tabs is scanned as the line
    itself, so a [User] or [ProxyJump] line contributes the same
    candidates at any depth. *)
Theorem scanLine_indentation (config : SSHConfig Time) (lead text : string)
    (w : World Time) :
  blanks lead = true ->
  scanLine config (lead +:+ text) w = scanLine config text w /\
  forall c, contribution c (lead +:+ text) = contribution c text.
Proof.
  intros Hb. split.
  - unfold scanLine. now rewrite (TrimSpace_blanks lead text Hb).
  - intros c. unfold contribution, hostsOf, accountsOf, jumpsOf.
    now rewrite (TrimSpace_blanks lead text Hb).
Qed.

(** ** The names of a [Host] line *)

Lemma append_not_empty (a b : string) :
  a <> EmptyString -> a +:+ b <> EmptyString.
Proof. destruct a; [contradiction | discriminate]. Qed.

Lemma runesFrom_bytes (n : nat) (s : string) :
  Forall (fun c => utf8.bytes c <> EmptyString) (utf8.runesFrom n s).
Proof.
  revert n; induction s as [|c t IH]; intros n; [destruct n; constructor|].
  destruct n as [|n]; [|apply IH].
  rewrite runesFrom_start. constructor; [|apply IH].
  pose proof (DecodeRuneInString_width c t) as Hw.
  destruct (snd (utf8.DecodeRuneInString (String c t))) as [|k]; [lia|].
  discriminate.
Qed.

Lemma join_not_empty (cs : list utf8.chunk) :
  cs <> [] ->
  Forall (fun c => utf8.bytes c <> EmptyString) cs ->
  utf8.join cs <> EmptyString.
Proof.
  destruct cs as [|c cs]; [contradiction|]. intros _ Hcs.
  apply Forall_cons in Hcs as [Hc _]. rewrite join_cons.
  now apply append_not_empty.
Qed.

Lemma fieldsFrom_not_empty (cur cs : list utf8.chunk) :
  Forall (fun c => utf8.bytes c <> EmptyString) cur ->
  Forall (fun c => utf8.bytes c <> EmptyString) cs ->
  Forall (fun field => field <> EmptyString) (strings.fieldsFrom cur cs).
Proof.
  assert (Hfield : forall c cur,
             Forall (fun c => utf8.bytes c <> EmptyString) (c :: cur) ->
             utf8.join (rev (c :: cur)) <> EmptyString).
  { intros c cur' Hcur. apply join_not_empty.
    - simpl. intros Hnil. now apply app_eq_nil in Hnil as [_ Hnil].
    - now apply Forall_rev. }
  revert cur; induction cs as [|c t IH]; intros cur Hcur Hcs; simpl.
  - destruct cur as [|c0 cur]; constructor; [now apply Hfield | constructor].
  - apply Forall_cons in Hcs as [Hc Ht].
    destruct (strings.space c).
    + destruct cur as [|c0 cur]; [now apply IH|].
      constructor; [now apply Hfield | now apply IH].
    + apply IH; [now constructor | assumption].
Qed.

(** X16. No line of the configuration file contributes an empty host
    name. *)
Theorem hosts_not_empty (text host : string) :
  host ∈ contribution CHosts text -> host <> EmptyString.
Proof.
  intros Hin. cbn [contribution] in Hin. unfold hostsOf in Hin.
  destruct (strings.HasPrefix _ "Host "); [|now apply not_elem_of_nil in Hin].
  destruct (strings.Contains _ "*"); [now apply not_elem_of_nil in Hin|].
  unfold strings.Fields in Hin.
  pose proof (fieldsFrom_not_empty [] _ (List.Forall_nil _)
                (runesFrom_bytes 0 (strings.TrimPrefix
                   (strings.TrimSpace text) "Host "))) as Hall.
  rewrite Forall_forall in Hall. now apply Hall.
Qed.

End More.

(* ===================================================================== *)
(** * The further properties on the sample worlds                        *)
(* ===================================================================== *)

Lemma secondRun_main :
  storedData (fst (main secondRun)) = Some secondStored /\
  picks (fst (main secondRun)) = ["alice"; "svc1"; "foo"; ""]%string /\
  command (fst (main secondRun)) = Some "alice@svc1@foo"%string.
Proof. vm_compute. repeat split. Qed.

(** X2 on a slice that holds [root]: [svc1] is added once. *)
Lemma addUniqueToSlice_NoDup_witness :
  NoDup ["root"%string] /\
  fold_left addUniqueToSlice ["svc1"; "root"; "svc1"]%string ["root"%string]
  = ["root"; "svc1"]%string /\
  NoDup (fold_left addUniqueToSlice ["svc1"; "root"; "svc1"]%string
           ["root"%string]).
Proof.
  assert (Hnd : NoDup ["root"%string]) by apply NoDup_singleton.
  split; [exact Hnd|]. split; [reflexivity|].
  exact (proj1 (addUniqueToSlice_NoDup ["svc1"; "root"; "svc1"]%string
                  ["root"%string] Hnd)).
Defined.

(** X6 on the sample world without a home directory. *)
Lemma main_stops_early_witness :
  homeDir (homeless plainRun) = None /\
  main (homeless plainRun)
  = ({| exit := Exit 1; picks := []; storedData := None; command := None |},
     homeless plainRun).
Proof.
  split; [reflexivity|].
  exact (main_stops_early (homeless plainRun) (or_intror eq_refl)).
Defined.

(** X7 on the sample run in which the picker of the host is left with
    the escape key. *)
Lemma main_stops_at_failed_selection_witness :
  exists config,
    fst (loadSSHConfig cancelledRun) = Ok config /\
    chosen (selections cancelledRun config) = ["alice"; "svc1"]%string /\
    fst (main cancelledRun)
    = {| exit := Exit 1; picks := ["alice"; "svc1"]%string;
         storedData := None; command := None |} /\
    files (snd (main cancelledRun)) = files cancelledRun.
Proof.
  destruct (fst (loadSSHConfig cancelledRun)) as [config|err] eqn:Hc;
    [|vm_compute in Hc; discriminate Hc].
  assert (Hkeys : configKeys config <> []).
  { vm_compute in Hc. injection Hc as <-. discriminate. }
  assert (Hchosen : chosen (selections cancelledRun config)
                    = ["alice"; "svc1"]%string).
  { vm_compute in Hc. injection Hc as <-. vm_compute. reflexivity. }
  assert (Hfail : Exists (fun answer => snd answer <> None)
                    (selections cancelledRun config)).
  { vm_compute in Hc. injection Hc as <-.
    apply Exists_cons_tl, Exists_cons_tl, Exists_cons_hd. vm_compute.
    discriminate. }
  exists config. split; [reflexivity|]. split; [exact Hchosen|].
  rewrite <- Hchosen.
  apply (main_stops_at_failed_selection cancelledRun config eq_refl Hc);
    [|exact Hfail].
  intros Hnil. contradiction.
Defined.

(** X8 on the sample runs: [alice] confirms and the client succeeds. *)
Lemma main_exit_status_witness :
  command (fst (main plainRun)) = Some "alice@svc1@foo"%string /\
  exit (fst (main plainRun)) = sessionExit plainRun "alice@svc1@foo" /\
  sessionExit plainRun "alice@svc1@foo" = Exit 0.
Proof.
  assert (Hcmd : command (fst (main plainRun)) = Some "alice@svc1@foo"%string).
  { vm_compute. reflexivity. }
  split; [exact Hcmd|]. split; [|reflexivity].
  exact (proj1 (main_exit_status plainRun "alice@svc1@foo" Hcmd)).
Defined.

(** X9 on the run of [alice] with [root] in her history. *)
Lemma main_records_selections_witness :
  storedData (fst (main secondRun)) = Some secondStored /\
  picks (fst (main secondRun)) = ["alice"; "svc1"; "foo"; ""]%string /\
  getValues (Accounts secondStored)
  = addUniqueToSlice
      (getValues (Accounts (fst (fst (loadStoredData secondRun))))) "svc1".
Proof.
  destruct secondRun_main as (Hd & Hp & _).
  split; [exact Hd|]. split; [exact Hp|].
  exact (proj1 (main_records_selections secondRun secondStored
                  "alice" "svc1" "foo" "" Hd Hp)).
Defined.

(** X10 on the same run: [root] stays first among the accounts. *)
Lemma main_extends_history_witness :
  storedData (fst (main secondRun)) = Some secondStored /\
  map identity (Accounts (fst (fst (loadStoredData secondRun))))
    `prefix_of` map identity (Accounts secondStored).
Proof.
  destruct secondRun_main as (Hd & _).
  split; [exact Hd|].
  exact (proj1 (main_extends_history secondRun secondStored CAccounts Hd)).
Defined.

Lemma secondStored_portable : Forall portable (allEntries secondStored).
Proof.
  repeat constructor;
    first [ exists eveningText; split; reflexivity
          | exists "2026-11-02T21:03:05Z"%string; split; reflexivity
          | exists "2026-11-02T21:03:06Z"%string; split; reflexivity ].
Qed.

(** X11 on the same run: the next run loads what this one stored, and
    offers [root] and [svc1] among the accounts. *)
Lemma main_history_next_run_witness :
  storedData (fst (main secondRun)) = Some secondStored /\
  Forall portable (allEntries secondStored) /\
  fst (loadStoredData (snd (main secondRun))) = (secondStored, None) /\
  exists config,
    fst (loadSSHConfig (snd (main secondRun))) = Ok config /\
    getValues (configAccounts config) = ["svc1"; "root"; "svc1"]%string.
Proof.
  destruct secondRun_main as (Hd & _).
  assert (Hdir : configDir "/home/alice" ∉ blocked secondRun).
  { apply not_elem_of_empty. }
  assert (Hfile : (files secondRun !! historyPath "/home/alice")
                  <> Some Locked).
  { vm_compute. discriminate. }
  destruct (main_history_next_run secondRun secondStored "/home/alice"
              Hd eq_refl Hdir Hfile secondStored_portable)
    as (Hload & config & Hc & _).
  split; [exact Hd|]. split; [exact secondStored_portable|].
  split; [exact Hload|].
  exists config. split; [exact Hc|].
  vm_compute in Hc. injection Hc as <-. reflexivity.
Defined.

(** X12 on the sample world: the hosts of the configuration file of the
    example, in the order of the file. *)
Lemma loadSSHConfig_candidates_witness :
  homeDir plainRun = Some "/home/alice"%string /\
  exists config,
    fst (loadSSHConfig plainRun) = Ok config /\
    getValues (configHosts config) = ["foo"; "bar"]%string /\
    getValues (configKeys config) = ["alice"%string].
Proof.
  split; [reflexivity|].
  destruct (loadSSHConfig_candidates plainRun "/home/alice" eq_refl)
    as (config & Hc & Hv).
  exists config. split; [exact Hc|]. split.
  - exact (Hv CHosts).
  - exact (Hv CKeys).
Defined.

(** X13 on the sample world: the selected account wins over the query. *)
Lemma runFzf_selected_witness :
  fzf plainRun [] "account"
  = Exited 0 ("" +:+ String LF ("svc1" +:+ String LF EmptyString)) /\
  fst (runFzf [] "account" plainRun) = ("svc1"%string, None).
Proof.
  split; [reflexivity|].
  exact (proj2 (proj2 (runFzf_selected [] "account" plainRun _ eq_refl))
           ""%string "svc1"%string ""%string eq_refl eq_refl (or_intror eq_refl)).
Defined.

(** X14 on the sample world whose configuration directory cannot be
    created: the session goes on and leaves no history. *)
Lemma blocked_directory_witness :
  homeDir (readOnly secondRun) = Some "/home/alice"%string /\
  configDir "/home/alice" ∈ blocked (readOnly secondRun) /\
  Accounts (fst (fst (loadStoredData (readOnly secondRun)))) = [] /\
  command (fst (main (readOnly secondRun))) = Some "alice@svc1@foo"%string /\
  files (snd (main (readOnly secondRun))) = files (readOnly secondRun).
Proof.
  assert (Hdir : configDir "/home/alice" ∈ blocked (readOnly secondRun)).
  { apply elem_of_singleton. reflexivity. }
  destruct (blocked_directory (readOnly secondRun) "/home/alice" eq_refl Hdir)
    as (Hload & _ & _ & Hfiles).
  split; [reflexivity|]. split; [exact Hdir|]. split; [now rewrite Hload|].
  split; [vm_compute; reflexivity | exact Hfiles].
Defined.

(** X15 on an indented [User] line. *)
Lemma scanLine_indentation_witness :
  blanks "    " = true /\
  scanLine emptyConfig ("    " +:+ "User svc1") plainRun
  = scanLine emptyConfig "User svc1" plainRun /\
  contribution CAccounts "    User svc1" = ["svc1"%string].
Proof.
  split; [reflexivity|].
  destruct (scanLine_indentation (Time := rfc3339.civil) emptyConfig
              "    " "User svc1" plainRun eq_refl) as [Hscan Hall].
  split; [exact Hscan|].
  exact (Hall CAccounts).
Defined.

(** X16 on the first line of the example. *)
Lemma hosts_not_empty_witness :
  "foo"%string ∈ contribution CHosts "Host foo bar" /\
  "foo"%string <> EmptyString.
Proof.
  assert (Hin : "foo"%string ∈ contribution CHosts "Host foo bar").
  { change ("foo"%string ∈ ["foo"; "bar"]%string). left. }
  split; [exact Hin|].
  exact (hosts_not_empty "Host foo bar" "foo" Hin).
Defined.


